(** * LinkedIn profile hunter: a shallow embedding of the scoring,
      block-detection, retry and search-result code, and its properties.

    Conventions of the embedding.
    - A Python [str] is a Rocq [string]; a character stands for the code
      point of the same number (code points below 256).
    - A Python [float] is the rational of [Q] it stands for.  The literals
      and the similarity ratios of the sub-scores are written as the
      rationals 0.9, 2 M / T, ... of their text; where the code computes
      with them ([calculate_confidence]) each is read as the binary64 number
      nearest to it, and every operation is the exact operation followed by
      rounding to binary64 (nearest, ties to even).  [round(x, 2)] rounds
      the exact value of the float [x] to hundredths, ties to even, as
      CPython does; its result is written as that decimal.  Scores are
      compared as rationals, which orders them as their floats are ordered
      unless two different scores round to one float.
    - A Python [int] is a [Z].
    - A [dict] whose keys are fixed by the code is a record with optional
      fields; a [dict] built key by key is an association list in insertion
      order.
    - Calls into libraries that are not part of the repository (the [re]
      engine on the pattern tables, BeautifulSoup, [difflib], [unicodedata],
      the crawler, the clock, the random generator) are section variables:
      every statement holds for whatever these functions compute. *)

From Stdlib Require Import String Ascii List Bool Arith ZArith QArith Lia.
From Stdlib Require Import Qround Qabs Lqa.
Import ListNotations.

Local Close Scope Q_scope.
Local Open Scope string_scope.
Local Open Scope list_scope.
Local Open Scope nat_scope.

(* ================================================================== *)
(** * Part I: the model                                                *)
(* ================================================================== *)

(** ** Python built-ins on [str] *)

Module Py.

(** [str.isspace] on one character: TAB..CR, FS..US, space, NEL, NBSP. *)
Definition is_space (c : ascii) : bool :=
  let n := nat_of_ascii c in
  ((9 <=? n) && (n <=? 13)) || ((28 <=? n) && (n <=? 32))
  || (n =? 133) || (n =? 160).

(** The class [\w] of [re] on one character. *)
Definition is_word (c : ascii) : bool :=
  let n := nat_of_ascii c in
  ((48 <=? n) && (n <=? 57)) || ((65 <=? n) && (n <=? 90)) || (n =? 95)
  || ((97 <=? n) && (n <=? 122))
  || (n =? 170) || (n =? 178) || (n =? 179) || (n =? 181) || (n =? 185)
  || (n =? 186) || ((188 <=? n) && (n <=? 190))
  || ((192 <=? n) && (n <=? 214)) || ((216 <=? n) && (n <=? 246))
  || ((248 <=? n) && (n <=? 255)).

(** [str.lower] on one character. *)
Definition lower_char (c : ascii) : ascii :=
  let n := nat_of_ascii c in
  if ((65 <=? n) && (n <=? 90))
     || ((192 <=? n) && (n <=? 222) && negb (n =? 215))
  then ascii_of_nat (n + 32) else c.

Fixpoint lower (s : string) : string :=
  match s with
  | EmptyString => EmptyString
  | String c s' => String (lower_char c) (lower s')
  end.

Fixpoint lstrip (s : string) : string :=
  match s with
  | EmptyString => EmptyString
  | String c s' => if is_space c then lstrip s' else s
  end.

Fixpoint rstrip (s : string) : string :=
  match s with
  | EmptyString => EmptyString
  | String c s' =>
      match rstrip s' with
      | EmptyString => if is_space c then EmptyString else String c EmptyString
      | r => String c r
      end
  end.

Definition strip (s : string) : string := rstrip (lstrip s).

(** [sub in s]. *)
Fixpoint contains (sub s : string) : bool :=
  String.prefix sub s
  || match s with
     | EmptyString => false
     | String _ s' => contains sub s'
     end.

(** [s.split()]: the maximal runs of non-whitespace characters. *)
Fixpoint split (s : string) : list string :=
  match s with
  | EmptyString => []
  | String c s' =>
      if is_space c then split s'
      else match s' with
           | EmptyString => [String c EmptyString]
           | String c' _ =>
               if is_space c' then String c EmptyString :: split s'
               else match split s' with
                    | t :: ts => String c t :: ts
                    | [] => [String c EmptyString]
                    end
           end
  end.

(** [s.replace(' ', '')]. *)
Fixpoint remove_spaces (s : string) : string :=
  match s with
  | EmptyString => EmptyString
  | String c s' =>
      if Ascii.eqb c " "%char then remove_spaces s'
      else String c (remove_spaces s')
  end.

(** [x in l] for a list of strings. *)
Definition mem (x : string) (l : list string) : bool :=
  existsb (String.eqb x) l.

(** Truth value of a [str]: [not s] holds for the empty string only. *)
Definition truthy (s : string) : bool :=
  match s with EmptyString => false | _ => true end.

(** [d[k] = v] on an insertion-ordered dict: a present key keeps its
    place, a new key goes to the end. *)
Fixpoint dict_set {V : Type} (k : string) (v : V) (d : list (string * V))
  : list (string * V) :=
  match d with
  | [] => [(k, v)]
  | (k', v') :: d' =>
      if String.eqb k k' then (k', v) :: d' else (k', v') :: dict_set k v d'
  end.

Fixpoint dict_get {V : Type} (k : string) (d : list (string * V)) : option V :=
  match d with
  | [] => None
  | (k', v') :: d' => if String.eqb k k' then Some v' else dict_get k d'
  end.

Definition keys {V : Type} (d : list (string * V)) : list string :=
  map fst d.

End Py.

(* ------------------------------------------------------------------ *)
(** ** utils/block_detection.py: [BlockDetector] *)

Module BlockDetector.

(** [details["wait_time"]]. *)
Record WaitTime := { value : Z; unit : string }.

(** The [details] dict: both keys are optional. *)
Record Details := {
  error_messages : option (list string);
  wait_time : option WaitTime
}.

(** The dict returned by [detect_blocks]. *)
Record DetectionResult := {
  is_blocked : bool;
  block_types : list string;
  details : option Details
}.

(** The dict returned by [get_recommended_action]; the [continue] answer
    has neither reason nor message. *)
Record Action := {
  action : string;
  reason : option string;
  message : option string;
  action_wait_time : Z
}.

Definition PATTERNS : list (string * list string) :=
  [ ("rate_limit",
     [ "you've\s+reached\s+the\s+(?:weekly|monthly)?\s*(?:limit|maximum)";
       "você\s+atingiu\s+o\s+(?:limite|máximo)\s+(?:semanal|mensal)?";
       "you've\s+viewed\s+the\s+maximum\s+number\s+of\s+profiles";
       "try\s+again\s+later";
       "tente\s+novamente\s+mais\s+tarde";
       "come\s+back\s+later\s+to\s+view\s+more\s+profiles" ]);
    ("security_check",
     [ "security\s+verification";
       "verificação\s+de\s+segurança";
       "prove\s+you're\s+a\s+person";
       "prove\s+que\s+você\s+é\s+humano";
       "captcha";
       "are\s+you\s+a\s+robot";
       "você\s+é\s+um\s+robô";
       "unusual\s+activity";
       "atividade\s+incomum" ]);
    ("login_required",
     [ "please\s+log\s+in\s+to\s+continue";
       "faça\s+login\s+para\s+continuar";
       "join\s+now\s+to\s+view";
       "cadastre-se\s+para\s+ver";
       "sign\s+in\s+to\s+view";
       "entrar\s+para\s+ver" ]);
    ("account_restricted",
     [ "your\s+account\s+has\s+been\s+restricted";
       "sua\s+conta\s+foi\s+restrita";
       "account\s+temporarily\s+restricted";
       "conta\s+temporariamente\s+restrita";
       "suspicious\s+activity";
       "atividade\s+suspeita";
       "we've\s+noticed\s+some\s+unusual\s+activity";
       "notamos\s+alguma\s+atividade\s+incomum" ]);
    ("not_found",
     [ "page\s+not\s+found";
       "página\s+não\s+encontrada";
       "this\s+page\s+doesn't\s+exist";
       "esta\s+página\s+não\s+existe";
       "hmm,\s+we\s+can't\s+reach\s+this\s+page";
       "hmm,\s+não\s+conseguimos\s+acessar\s+esta\s+página" ]);
    ("private_profile",
     [ "this\s+profile\s+is\s+not\s+available";
       "este\s+perfil\s+não\s+está\s+disponível";
       "out\s+of\s+your\s+network";
       "fora\s+da\s+sua\s+rede";
       "to\s+see\s+this\s+profile,\s+upgrade\s+to\s+premium";
       "para\s+ver\s+este\s+perfil,\s+atualize\s+para\s+o\s+premium" ]);
    ("ip_block",
     [ "we've\s+detected\s+unusual\s+activity\s+from\s+your\s+network";
       "detectamos\s+atividade\s+incomum\s+da\s+sua\s+rede";
       "your\s+IP\s+address\s+has\s+been\s+temporarily\s+blocked";
       "seu\s+endereço\s+IP\s+foi\s+temporariamente\s+bloqueado";
       "too\s+many\s+requests";
       "muitas\s+solicitações" ]) ].

Definition HTML_INDICATORS : list (string * list string) :=
  [ ("rate_limit",
     [ ".limit-reached"; ".search-limit"; ".limit-hit";
       "[data-test-limit-reached]" ]);
    ("security_check",
     [ ".challenge"; ".captcha-container"; "#captcha";
       ".security-verification"; "[data-test-security-check]" ]);
    ("login_required",
     [ ".login-form"; ".join-form"; ".sign-in-card";
       "[data-test-login-required]" ]);
    ("account_restricted",
     [ ".restricted-account"; ".account-suspended";
       "[data-test-account-restricted]" ]);
    ("not_found",
     [ ".not-found"; ".error-404"; "[data-test-404]"; ".page-not-found" ]);
    ("private_profile",
     [ ".private-profile"; ".out-of-network"; "[data-test-private-profile]" ]);
    ("ip_block",
     [ ".ip-restricted"; ".too-many-requests"; "[data-test-ip-block]" ]) ].

Definition URL_INDICATORS : list (string * list string) :=
  [ ("security_check", [ "checkpoint/challenge"; "security/check"; "captcha" ]);
    ("login_required", [ "linkedin.com/login"; "linkedin.com/checkpoint" ]);
    ("account_restricted",
     [ "linkedin.com/checkpoint/restricted"; "linkedin.com/suspended" ]);
    ("not_found", [ "linkedin.com/404"; "linkedin.com/pub/error" ]) ].

Definition error_selectors : list string :=
  [ ".error-message"; ".alert-error"; ".alert-warning";
    ".notification-text"; ".message-body" ].

Definition wait_time_patterns : list string :=
  [ "try\s+again\s+in\s+(\d+)\s+(minutes|hours|days)";
    "tente\s+novamente\s+em\s+(\d+)\s+(minutos|horas|dias)" ].

(** The working dict of [detect_blocks]: block kind to flag. *)
Definition Blocks := list (string * bool).

Definition flag (blocks : Blocks) (k : string) : bool :=
  match Py.dict_get k blocks with Some b => b | None => false end.

Section Detection.

(** [re.search(pattern, text, re.IGNORECASE)] is not [None]. *)
Variable re_search : string -> string -> bool.
(** Groups 1 and 2 of [re.search(pattern, text, re.IGNORECASE)]. *)
Variable re_search_groups : string -> string -> option (string * string).
(** [int(s)]; [None] when it raises. *)
Variable int_of_str : string -> option Z.
(** BeautifulSoup: the parsed document, [soup.select], [element.text];
    [None] stands for a raised exception. *)
Variable Soup Element : Type.
Variable BeautifulSoup : string -> option Soup.
Variable select : Soup -> string -> option (list Element).
Variable text : Element -> string.

(** One table-driven pass: [for block_type, patterns in table.items():
    for pattern in patterns: if hit(pattern): blocks[block_type] = True;
    break]. *)
Fixpoint mark_table (hit : string -> bool) (table : list (string * list string))
    (blocks : Blocks) : Blocks :=
  match table with
  | [] => blocks
  | (block_type, patterns) :: rest =>
      mark_table hit rest
        (if existsb hit patterns then Py.dict_set block_type true blocks
         else blocks)
  end.

Definition _check_text_patterns (html : string) (blocks : Blocks) : Blocks :=
  let html_lower := Py.lower html in
  mark_table (fun pattern => re_search pattern html_lower) PATTERNS blocks.

(** The selector loop of one block kind; [None] when [soup.select] raises. *)
Fixpoint any_selected (soup : Soup) (selectors : list string) : option bool :=
  match selectors with
  | [] => Some false
  | selector :: rest =>
      match select soup selector with
      | None => None
      | Some [] => any_selected soup rest
      | Some (_ :: _) => Some true
      end
  end.

(** The outer loop under [try]: an exception leaves the flags set so far. *)
Fixpoint mark_selected (soup : Soup) (table : list (string * list string))
    (blocks : Blocks) : Blocks :=
  match table with
  | [] => blocks
  | (block_type, selectors) :: rest =>
      match any_selected soup selectors with
      | None => blocks
      | Some true => mark_selected soup rest (Py.dict_set block_type true blocks)
      | Some false => mark_selected soup rest blocks
      end
  end.

Definition _check_html_elements (html : string) (blocks : Blocks) : Blocks :=
  match BeautifulSoup html with
  | None => blocks
  | Some soup => mark_selected soup HTML_INDICATORS blocks
  end.

Definition _check_url_patterns (url : string) (blocks : Blocks) : Blocks :=
  let url_lower := Py.lower url in
  mark_table (fun pattern => re_search pattern url_lower) URL_INDICATORS blocks.

Definition _check_redirects (url : string) (blocks : Blocks) : Blocks :=
  let blocks :=
    if Py.contains "linkedin.com/login" url && negb (flag blocks "login_required")
    then Py.dict_set "login_required" true blocks else blocks in
  if Py.contains "linkedin.com/checkpoint" url
     && negb (flag blocks "security_check")
  then Py.dict_set "security_check" true blocks else blocks.

(** The texts of the selected elements that are not blank, stripped;
    [None] when [soup.select] raises. *)
Fixpoint collect_messages (soup : Soup) (selectors : list string)
    (acc : list string) : option (list string) :=
  match selectors with
  | [] => Some acc
  | selector :: rest =>
      match select soup selector with
      | None => None
      | Some elements =>
          collect_messages soup rest
            (acc ++ map (fun e => Py.strip (text e))
                      (filter (fun e => Py.truthy (Py.strip (text e))) elements))
      end
  end.

(** The inner loop over the messages for one wait-time pattern: the first
    message that matches sets [details["wait_time"]] and ends the loop.
    The outer [option] is [None] when [int] raises. *)
Fixpoint scan_messages (pattern : string) (messages : list string)
    (d : Details) : option Details :=
  match messages with
  | [] => Some d
  | msg :: rest =>
      match re_search_groups pattern msg with
      | None => scan_messages pattern rest d
      | Some (g1, g2) =>
          match int_of_str g1 with
          | None => None
          | Some time_value =>
              Some {| error_messages := error_messages d;
                      wait_time := Some {| value := time_value; unit := g2 |} |}
          end
      end
  end.

(** The outer loop over the wait-time patterns; an exception returns the
    details as they stand. *)
Fixpoint scan_patterns (patterns : list string) (messages : list string)
    (d : Details) : Details :=
  match patterns with
  | [] => d
  | pattern :: rest =>
      match scan_messages pattern messages d with
      | None => d
      | Some d' => scan_patterns rest messages d'
      end
  end.

Definition _get_block_details (html : string) (blocks : Blocks) : Details :=
  let details := {| error_messages := None; wait_time := None |} in
  match BeautifulSoup html with
  | None => details
  | Some soup =>
      match collect_messages soup error_selectors [] with
      | None => details
      | Some msgs =>
          let details :=
            match msgs with
            | [] => details
            | _ => {| error_messages := Some msgs; wait_time := None |}
            end in
          if flag blocks "rate_limit"
          then scan_patterns wait_time_patterns msgs details
          else details
      end
  end.

Definition detect_blocks (html url : string) : DetectionResult :=
  let blocks := map (fun kv => (fst kv, false)) PATTERNS in
  let blocks := _check_text_patterns html blocks in
  let blocks := _check_html_elements html blocks in
  let blocks := _check_url_patterns url blocks in
  let blocks := _check_redirects url blocks in
  let block_details := _get_block_details html blocks in
  {| is_blocked := existsb (fun kv => snd kv) blocks;
     block_types := map fst (filter (fun kv => snd kv) blocks);
     details := Some block_details |}.

End Detection.

Local Open Scope Z_scope.

Definition get_recommended_action (detection_result : DetectionResult) : Action :=
  if negb (is_blocked detection_result) then
    {| action := "continue"; reason := None; message := None;
       action_wait_time := 0 |}
  else
  let block_types := block_types detection_result in
  if Py.mem "account_restricted" block_types then
    {| action := "stop"; reason := Some "account_restricted";
       message := Some "Conta restrita. Verifique manualmente sua conta do LinkedIn.";
       action_wait_time := 86400 |}
  else if Py.mem "ip_block" block_types then
    {| action := "change_proxy"; reason := Some "ip_block";
       message := Some "IP bloqueado. Troque de proxy antes de continuar.";
       action_wait_time := 3600 |}
  else if Py.mem "security_check" block_types then
    {| action := "manual_intervention"; reason := Some "security_check";
       message := Some "Verificação de segurança detectada. Intervenção manual necessária.";
       action_wait_time := 1800 |}
  else if Py.mem "rate_limit" block_types then
    let wait_time :=
      match details detection_result with
      | Some d =>
          match wait_time d with
          | Some wait_info =>
              let value := value wait_info in
              let unit := unit wait_info in
              if Py.contains "minute" unit then value * 60
              else if Py.contains "hour" unit then value * 3600
              else if Py.contains "day" unit then value * 86400
              else 3600
          | None => 3600
          end
      | None => 3600
      end in
    {| action := "wait"; reason := Some "rate_limit";
       message := Some "Limite de taxa atingido. Aguarde antes de continuar.";
       action_wait_time := wait_time |}
  else if Py.mem "login_required" block_types then
    {| action := "login"; reason := Some "login_required";
       message := Some "Login necessário. Tente fazer login novamente.";
       action_wait_time := 0 |}
  else if Py.mem "not_found" block_types then
    {| action := "skip"; reason := Some "not_found";
       message := Some "Página não encontrada. Pule este perfil.";
       action_wait_time := 0 |}
  else if Py.mem "private_profile" block_types then
    {| action := "skip"; reason := Some "private_profile";
       message := Some "Perfil privado ou fora da rede. Pule este perfil.";
       action_wait_time := 0 |}
  else
    {| action := "wait"; reason := Some "unknown_block";
       message := Some "Bloqueio desconhecido detectado. Aguarde antes de continuar.";
       action_wait_time := 1800 |}.

End BlockDetector.

(* ------------------------------------------------------------------ *)
(** ** utils/error_handling.py: [RateLimiter] and [retry_async] *)

Module ErrorHandling.

(** How a call ends: with a value or with a raised exception. *)
Inductive outcome (E A : Type) : Type :=
| Returned (a : A)
| Raised (e : E).
Arguments Returned {E A} a.
Arguments Raised {E A} e.

(** An effectful computation: it reads and changes the world (clock,
    random generator, event loop, standard output, network) and ends
    with an outcome.  A raised exception keeps the changes made so far. *)
Definition M (W E A : Type) : Type := W -> outcome E A * W.

Definition ret {W E A} (a : A) : M W E A := fun w => (Returned a, w).

Definition bind {W E A B} (m : M W E A) (k : A -> M W E B) : M W E B :=
  fun w =>
    match m w with
    | (Returned a, w') => k a w'
    | (Raised e, w') => (Raised e, w')
    end.

Definition raise {W E A} (e : E) : M W E A := fun w => (Raised e, w).

(** An effect that cannot fail. *)
Definition lift {W E A} (f : W -> A * W) : M W E A :=
  fun w => let (a, w') := f w in (Returned a, w').

Definition exec {W E} (f : W -> W) : M W E unit :=
  fun w => (Returned tt, f w).

Declare Scope py_scope.
Delimit Scope py_scope with py.
Notation "x <- m ;; k" := (bind m (fun x => k))
  (at level 61, m at next level, right associativity) : py_scope.
Notation "m ;;; k" := (bind m (fun _ => k))
  (at level 61, right associativity) : py_scope.

Record RateLimiter := {
  requests_per_minute : Z;
  jitter_min_ms : Z;
  jitter_max_ms : Z;
  interval : Q;
  last_request_time : Q
}.

(** [range(n)] as the list [0; 1; ...; n-1], empty for [n <= 0]. *)
Definition range (n : Z) : list Z :=
  map Z.of_nat (seq 0 (Z.to_nat n)).

Section Effects.

Variable W : Type.
Variable E : Type.

(** [time.time()], [asyncio.sleep], [random.randint], [random.uniform]
    and [print]. *)
Variable time_time : W -> Q * W.
Variable asyncio_sleep : Q -> W -> W.
Variable random_randint : Z -> Z -> W -> Z * W.
Variable random_uniform : Q -> Q -> W -> Q * W.
Variable print : string -> W -> W.
(** The two formatted messages of [retry_async]. *)
Variable retry_message : Z -> Q -> string.
Variable give_up_message : Z -> string.

Local Open Scope Q_scope.

(** [RateLimiter.__init__]: the default jitter bounds are those of the
    signature. *)
Definition RateLimiter_init (requests_per_minute : Z) : RateLimiter :=
  {| requests_per_minute := requests_per_minute;
     jitter_min_ms := 500;
     jitter_max_ms := 2000;
     interval := 60 / inject_Z requests_per_minute;
     last_request_time := 0 |}.

(** [RateLimiter.wait]. *)
Definition wait (self : RateLimiter) (w : W) : RateLimiter * W :=
  let (current_time, w) := time_time w in
  let elapsed := current_time - last_request_time self in
  let w :=
    if negb (Qle_bool (interval self) elapsed)
    then asyncio_sleep (interval self - elapsed) w
    else w in
  let (j, w) := random_randint (jitter_min_ms self) (jitter_max_ms self) w in
  let jitter := inject_Z j / 1000 in
  let w := asyncio_sleep jitter w in
  let (now, w) := time_time w in
  ({| requests_per_minute := requests_per_minute self;
      jitter_min_ms := jitter_min_ms self;
      jitter_max_ms := jitter_max_ms self;
      interval := interval self;
      last_request_time := now |}, w).

Section Retry.

Variable A : Type.
(** The wrapped coroutine function. *)
Variable func : M W E A.
Variable max_retries : Z.
(** [isinstance(e, exceptions)]. *)
Variable exceptions : E -> bool.
Variable backoff_factor : Q.

(** The body of [for attempt in range(max_retries + 1)], with the current
    [delay].  Falling out of the loop returns [None]. *)
Fixpoint retry_loop (attempts : list Z) (delay : Q) (w : W)
  : outcome E (option A) * W :=
  match attempts with
  | [] => (Returned None, w)
  | attempt :: rest =>
      match func w with
      | (Returned v, w) => (Returned (Some v), w)
      | (Raised e, w) =>
          if exceptions e then
            if (attempt <? max_retries)%Z then
              let (jitter, w) := random_uniform (8 # 10) (12 # 10) w in
              let wait_time := delay * jitter in
              let w := print (retry_message (attempt + 1) wait_time) w in
              let w := asyncio_sleep wait_time w in
              retry_loop rest (delay * backoff_factor) w
            else
              let w := print (give_up_message (max_retries + 1)) w in
              (Raised e, w)
          else (Raised e, w)
      end
  end.

Definition retry_async (retry_delay : Q) : M W E (option A) :=
  retry_loop (range (max_retries + 1)) retry_delay.

End Retry.

End Effects.

End ErrorHandling.

(* ------------------------------------------------------------------ *)
(** ** The two library functions the calculator calls *)

(** [unicodedata.normalize('NFKD', text).encode('ASCII', 'ignore')
    .decode('ASCII')] on code points below 256: each character is replaced
    by the ASCII characters of its compatibility decomposition. *)
Module Unicodedata.

Definition nfkd_ascii_char (c : ascii) : string :=
  let n := nat_of_ascii c in
  let one (k : nat) := String (ascii_of_nat k) EmptyString in
  if n <? 128 then String c EmptyString
  else if (n =? 160) || (n =? 168) || (n =? 175) || (n =? 180) || (n =? 184)
  then " "
  else if n =? 170 then "a" else if n =? 186 then "o"
  else if n =? 178 then "2" else if n =? 179 then "3"
  else if n =? 185 then "1"
  else if n =? 188 then "14" else if n =? 189 then "12"
  else if n =? 190 then "34"
  else if (192 <=? n) && (n <=? 197) then "A"
  else if n =? 199 then "C"
  else if (200 <=? n) && (n <=? 203) then "E"
  else if (204 <=? n) && (n <=? 207) then "I"
  else if n =? 209 then "N"
  else if (210 <=? n) && (n <=? 214) then "O"
  else if (217 <=? n) && (n <=? 220) then "U"
  else if n =? 221 then "Y"
  else if (224 <=? n) && (n <=? 229) then "a"
  else if n =? 231 then "c"
  else if (232 <=? n) && (n <=? 235) then "e"
  else if (236 <=? n) && (n <=? 239) then "i"
  else if n =? 241 then "n"
  else if (242 <=? n) && (n <=? 246) then "o"
  else if (249 <=? n) && (n <=? 252) then "u"
  else if (n =? 253) || (n =? 255) then "y"
  else EmptyString.

Fixpoint nfkd_ascii (s : string) : string :=
  match s with
  | EmptyString => EmptyString
  | String c s' => nfkd_ascii_char c ++ nfkd_ascii s'
  end.

End Unicodedata.

(** [difflib.SequenceMatcher(None, a, b).ratio()]: no junk predicate, the
    automatic junk heuristic left on. *)
Module Difflib.

Definition count (c : ascii) (b : list ascii) : nat :=
  length (filter (Ascii.eqb c) b).

(** [__chain_b]: for [len(b) >= 200] the elements that occur more than
    [len(b) // 100 + 1] times are popular and lose their entry in [b2j]. *)
Definition popular (b : list ascii) (c : ascii) : bool :=
  (200 <=? length b) && (length b / 100 + 1 <? count c b).

Section Matcher.

Variable pop : ascii -> bool.

(** One round of the inner loop of [find_longest_match]: from
    [j2len.get(j-1, 0)] for every [j] (the list [prev], shifted by one)
    to [newj2len]; positions without an entry hold 0. *)
Fixpoint next_row (x : ascii) (b : list ascii) (prev : list nat) : list nat :=
  match b with
  | [] => []
  | y :: b' =>
      let p := match prev with [] => 0 | p :: _ => p end in
      (if Ascii.eqb x y && negb (pop y) then S p else 0)
        :: next_row x b' (tl prev)
  end.

(** [if k > bestsize: besti, bestj, bestsize = i-k+1, j-k+1, k], for
    ascending [j]. *)
Fixpoint scan_row (i j : nat) (row : list nat) (best : nat * nat * nat)
  : nat * nat * nat :=
  match row with
  | [] => best
  | k :: row' =>
      let '(_, _, bestsize) := best in
      scan_row i (S j) row'
        (if bestsize <? k then (i + 1 - k, j + 1 - k, k) else best)
  end.

(** The outer loop [for i in range(alo, ahi)]. *)
Fixpoint longest_loop (a : list ascii) (i : nat) (b : list ascii)
    (j2len : list nat) (best : nat * nat * nat) : nat * nat * nat :=
  match a with
  | [] => best
  | x :: a' =>
      let newj2len := next_row x b (0 :: j2len) in
      longest_loop a' (S i) b newj2len (scan_row i 0 newj2len best)
  end.

(** The first extension loop: backwards over equal elements (no element
    is junk). *)
Fixpoint extend_back (a b : list ascii) (i j k : nat) : nat * nat * nat :=
  match i, j with
  | S i', S j' =>
      match nth_error a i', nth_error b j' with
      | Some x, Some y =>
          if Ascii.eqb x y then extend_back a b i' j' (S k) else (i, j, k)
      | _, _ => (i, j, k)
      end
  | _, _ => (i, j, k)
  end.

Fixpoint common_prefix (a b : list ascii) : nat :=
  match a, b with
  | x :: a', y :: b' => if Ascii.eqb x y then S (common_prefix a' b') else 0
  | _, _ => 0
  end.

(** [find_longest_match(alo, ahi, blo, bhi)] on the slices [a = a[alo:ahi]]
    and [b = b[blo:bhi]], with positions relative to the slices.  The two
    loops over junk elements never run: the junk set is empty. *)
Definition find_longest_match (a b : list ascii) : nat * nat * nat :=
  let '(i, j, k) := longest_loop a 0 b [] (0, 0, 0) in
  let '(i, j, k) := extend_back a b i j k in
  (i, j, k + common_prefix (skipn (i + k) a) (skipn (j + k) b)).

(** The sum of the sizes of [get_matching_blocks()]: the longest match,
    then the same to its left and to its right. *)
Fixpoint matches (fuel : nat) (a b : list ascii) : nat :=
  match fuel with
  | 0 => 0
  | S fuel' =>
      let '(i, j, k) := find_longest_match a b in
      if k =? 0 then 0
      else
        k + (if (0 <? i) && (0 <? j)
             then matches fuel' (firstn i a) (firstn j b) else 0)
          + (if (i + k <? length a) && (j + k <? length b)
             then matches fuel' (skipn (i + k) a) (skipn (j + k) b) else 0)
  end.

End Matcher.

(** [_calculate_ratio(matches, len(a) + len(b))]. *)
Definition ratio (a b : string) : Q :=
  let la := list_ascii_of_string a in
  let lb := list_ascii_of_string b in
  let total := length la + length lb in
  if total =? 0 then 1%Q
  else (Z.of_nat (2 * matches (popular lb) (S (length la)) la lb)
        # Pos.of_nat total)%Q.

End Difflib.

(* ------------------------------------------------------------------ *)
(** ** utils/confidence_calculator.py: [ConfidenceCalculator] *)

Module ConfidenceCalculator.

(** One entry of [profile_data["experience"]]: every key is optional. *)
Record Experience := {
  title : option string;
  company : option string;
  duration : option string;
  location : option string
}.

Record Education := {
  institution : option string;
  degree : option string;
  edu_duration : option string
}.

(** The keys of [profile_data] that the calculator and the hunter read. *)
Record ProfileData := {
  full_name : option string;
  headline : option string;
  experience : option (list Experience);
  education : option (list Education);
  skills : option (list string)
}.

(** [input_data]: the keys [name], [email] and [company]. *)
Record InputData := {
  name : option string;
  email : option string;
  input_company : option string
}.

(** [d.get(key, default)]. *)
Definition get {A : Type} (field : option A) (default : A) : A :=
  match field with Some x => x | None => default end.

(** Truth value of an experience dict: an empty dict is false. *)
Definition exp_truthy (e : Experience) : bool :=
  match title e, company e, duration e, location e with
  | None, None, None, None => false
  | _, _, _, _ => true
  end.

(** [a > b] and [max(a, b)] on scores. *)
Definition Qgtb (a b : Q) : bool := negb (Qle_bool a b).
Definition py_max (a b : Q) : Q := if Qgtb b a then b else a.

(** [re.findall(r'\w+', s)]: the maximal runs of word characters. *)
Fixpoint findall_words (s : string) : list string :=
  match s with
  | EmptyString => []
  | String c s' =>
      if Py.is_word c then
        match s' with
        | EmptyString => [String c EmptyString]
        | String c' _ =>
            if Py.is_word c' then
              match findall_words s' with
              | t :: ts => String c t :: ts
              | [] => [String c EmptyString]
              end
            else String c EmptyString :: findall_words s'
        end
      else findall_words s'
  end.

(** [s.split('@')]. *)
Fixpoint split_at (s : string) : list string :=
  match s with
  | EmptyString => [EmptyString]
  | String c s' =>
      if Ascii.eqb c "@"%char then EmptyString :: split_at s'
      else match split_at s' with
           | h :: t => String c h :: t
           | [] => [String c EmptyString]
           end
  end.

(** The characters before the first [@]; [None] without an [@]. *)
Fixpoint before_at (s : string) : option string :=
  match s with
  | EmptyString => None
  | String c s' =>
      if Ascii.eqb c "@"%char then Some EmptyString
      else option_map (String c) (before_at s')
  end.

(** Group 1 of [re.match(r'^([^@]+)@', s)]; [None] when there is no match. *)
Definition username_match (s : string) : option string :=
  match before_at s with
  | Some (String c r) => Some (String c r)
  | _ => None
  end.

(** [word[0]] of a non-empty word, as a string. *)
Definition first_char (s : string) : string :=
  match s with
  | EmptyString => EmptyString
  | String c _ => String c EmptyString
  end.

Local Open Scope Q_scope.

(** [round(x, 2)]: to the nearest hundredth, ties to the even one. *)
Definition round_half_even (x : Q) : Z :=
  let n := Qfloor x in
  let frac := x - inject_Z n in
  if Qgtb (1 # 2) frac then n
  else if Qgtb frac (1 # 2) then (n + 1)%Z
  else if Z.even n then n else (n + 1)%Z.

Definition round2 (x : Q) : Q := inject_Z (round_half_even (x * 100)) / 100.

(** The binary64 numbers are the multiples [m * 2 ^ (g - 1074)] with
    [0 <= g] and a significand [m] below [2 ^ 53]; [g = 0] gives the
    subnormal numbers. *)
Definition subnormal_scale : Z := 2 ^ 1074.

(** The binary64 number nearest to [x], ties to the even significand: [x]
    is rounded to an integer on the grid on which it has 53 bits (or on
    the grid of the subnormals when it is too small for that).  No
    overflow is modelled: the calculator stays below 2 ^ 1024. *)
Definition binary64 (x : Q) : Q :=
  let scaled := Qabs x * inject_Z subnormal_scale in
  let g := Z.max 0 (Z.log2 (Qfloor scaled) - 52) in
  let m := round_half_even (scaled / inject_Z (2 ^ g)) in
  let r := inject_Z (m * 2 ^ g) / inject_Z subnormal_scale in
  if Qle_bool 0 x then r else - r.

(** [a + b], [a * b] and [a / b] on floats. *)
Definition float_add (a b : Q) : Q := binary64 (a + b).
Definition float_mul (a b : Q) : Q := binary64 (a * b).
Definition float_div (a b : Q) : Q := binary64 (a / b).

Section Calculator.

(** [unicodedata.normalize('NFKD', text).encode('ASCII', 'ignore')
    .decode('ASCII')]. *)
Variable unicode_to_ascii : string -> string.
(** [SequenceMatcher(None, a, b).ratio()]. *)
Variable ratio : string -> string -> Q.

Definition _normalize_text (text : string) : string :=
  let text := unicode_to_ascii text in
  Py.strip (Py.lower text).

Definition initials (s : string) : string :=
  String.concat EmptyString (map first_char (Py.split s)).

Definition _check_initials (input_name profile_name : string) : bool :=
  String.eqb (initials input_name) (initials profile_name).

Definition _get_current_experience (experiences : list Experience)
  : option Experience :=
  match experiences with
  | [] => None
  | e :: _ => Some e
  end.

Definition _compare_names (input_name profile_name : string) : Q :=
  if negb (Py.truthy input_name) || negb (Py.truthy profile_name) then 0
  else
  let input_name := _normalize_text input_name in
  let profile_name := _normalize_text profile_name in
  if String.eqb input_name profile_name then 1
  else
  let input_tokens := Py.split input_name in
  let profile_tokens := Py.split profile_name in
  if forallb (fun t => Py.mem t profile_tokens) input_tokens then 9 # 10
  else
  let input_parts := Py.split input_name in
  let profile_parts := Py.split profile_name in
  if (2 <=? length input_parts)%nat && (2 <=? length profile_parts)%nat
     && String.eqb (hd EmptyString input_parts) (hd EmptyString profile_parts)
     && String.eqb (last input_parts EmptyString)
                   (last profile_parts EmptyString)
  then 8 # 10
  else
  let similarity := ratio input_name profile_name in
  if Qgtb similarity (7 # 10) then similarity
  else if _check_initials input_name profile_name then 6 # 10
  else similarity.

(** The loop over all experiences: 0.9 at the first exact match, otherwise
    the running maximum. *)
Fixpoint scan_experiences (input_company : string)
    (experiences : list Experience) (max_similarity : Q) : Q :=
  match experiences with
  | [] => max_similarity
  | exp :: rest =>
      let company_name := _normalize_text (get (company exp) EmptyString) in
      if String.eqb input_company company_name then 9 # 10
      else
        let similarity := ratio input_company company_name in
        let max_similarity := py_max max_similarity similarity in
        let max_similarity :=
          if Py.contains input_company company_name
             || Py.contains company_name input_company
          then py_max max_similarity (7 # 10) else max_similarity in
        scan_experiences input_company rest max_similarity
  end.

Definition _compare_company (input_company : string)
    (experiences : list Experience) : Q :=
  if negb (Py.truthy input_company)
     || match experiences with [] => true | _ => false end
  then 0
  else
  let input_company := _normalize_text input_company in
  let all := scan_experiences input_company experiences 0 in
  match _get_current_experience experiences with
  | Some current_experience =>
      if exp_truthy current_experience then
        let company_name :=
          _normalize_text (get (company current_experience) EmptyString) in
        if String.eqb input_company company_name then 1
        else
          let similarity := ratio input_company company_name in
          if Qgtb similarity (7 # 10) then similarity
          else if Py.contains input_company company_name
                  || Py.contains company_name input_company
          then 8 # 10
          else all
      else all
  | None => all
  end.

(** The loop over the four patterns: the first pattern that is equal to
    the username answers 0.9, the first one that is similar answers 0.7,
    whichever comes first. *)
Fixpoint match_patterns (username : string) (patterns : list string)
  : option Q :=
  match patterns with
  | [] => None
  | pattern :: rest =>
      if String.eqb username pattern then Some (9 # 10)
      else if Qgtb (ratio username pattern) (8 # 10) then Some (7 # 10)
      else match_patterns username rest
  end.

Definition name_patterns (name_parts : list string) : list string :=
  let first_name := hd EmptyString name_parts in
  let last_name := last name_parts EmptyString in
  [ first_name ++ "." ++ last_name;
    first_name ++ "_" ++ last_name;
    first_name ++ last_name;
    first_char first_name ++ last_name ]%string.

(** The last part of [_compare_email]: the domain against the words of the
    current company. *)
Definition domain_score (input_email : string) (profile_data : ProfileData)
  : Q :=
  let email_domain := Py.lower (last (split_at input_email) EmptyString) in
  let hit :=
    match _get_current_experience (get (experience profile_data) []) with
    | Some current_experience =>
        exp_truthy current_experience &&
        let company_name :=
          Py.lower
            (_normalize_text (get (company current_experience) EmptyString)) in
        let company_words := findall_words company_name in
        existsb (fun word => (3 <? String.length word)%nat
                             && Py.contains word email_domain)
                company_words
    | None => false
    end in
  if hit then 6 # 10 else 2 # 10.

Definition _compare_email (input_email : string) (profile_data : ProfileData)
  : Q :=
  if negb (Py.truthy input_email) then 0
  else
  match username_match input_email with
  | None => 0
  | Some g =>
      let username := Py.lower g in
      let full_name :=
        _normalize_text (get (full_name profile_data) EmptyString) in
      if Py.contains username (Py.lower (Py.remove_spaces full_name))
      then 8 # 10
      else
        let name_parts := Py.split (Py.lower full_name) in
        let by_pattern :=
          if (2 <=? length name_parts)%nat
          then match_patterns username (name_patterns name_parts)
          else None in
        match by_pattern with
        | Some score => score
        | None => domain_score input_email profile_data
        end
  end.

(** The value of [final_score] in [calculate_confidence]: the weights are
    integers, the three sub-scores floats. *)
Definition final_score (input_data : InputData)
    (profile_data : ProfileData) : Q :=
  let score := 0 in
  let total_weight := 0 in
  let name_score :=
    binary64 (_compare_names (get (name input_data) EmptyString)
                             (get (full_name profile_data) EmptyString)) in
  let score := float_add score (float_mul name_score 40) in
  let total_weight := total_weight + 40 in
  let company_score :=
    binary64 (_compare_company (get (input_company input_data) EmptyString)
                               (get (experience profile_data) [])) in
  let score := float_add score (float_mul company_score 30) in
  let total_weight := total_weight + 30 in
  let email_score :=
    binary64 (_compare_email (get (email input_data) EmptyString)
                             profile_data) in
  let score := float_add score (float_mul email_score 30) in
  let total_weight := total_weight + 30 in
  if Qgtb total_weight 0
  then float_mul (float_div score total_weight) 100
  else 0.

Definition calculate_confidence (input_data : InputData)
    (profile_data : ProfileData) : Q :=
  round2 (final_score input_data profile_data).

End Calculator.

End ConfidenceCalculator.

(* ------------------------------------------------------------------ *)
(** ** core/profile_finder.py: extraction of profile URLs *)

Module ProfileFinder.

(** The pieces a pattern of this module is made of. *)
Inductive item : Type :=
| Lit (s : string)               (* the characters of [s], one after another *)
| OptLit (s : string)            (* [(?:s)?], greedy *)
| Plus (cls : ascii -> bool)     (* [[cls]+], greedy *)
| Star (cls : ascii -> bool).    (* [[cls]*], greedy *)







Definition double_quote : ascii := ascii_of_nat 34.
Definition single_quote : ascii := ascii_of_nat 39.

(** The two character classes of the pattern: a word character or a
    hyphen; anything but a double quote, a single quote and whitespace. *)
Definition handle_char (c : ascii) : bool :=
  Py.is_word c || Ascii.eqb c "-"%char.
Definition url_char (c : ascii) : bool :=
  negb (Ascii.eqb c double_quote || Ascii.eqb c single_quote || Py.is_space c).

(** The pattern of the source: http, an optional s, ://, an optional
    www., linkedin.com/in/, one or more handle characters, an optional
    slash, and any number of URL characters. *)
Definition pattern : list item :=
  [ Lit "http"; OptLit "s"; Lit "://"; OptLit "www."; Lit "linkedin.com/in/";
    Plus handle_char; OptLit "/"; Star url_char ].



End ProfileFinder.

(* ------------------------------------------------------------------ *)
(** ** linkedin_profile_hunter.py: [LinkedInProfileHunter.hunt_profile] *)

Module Hunter.

Import ErrorHandling.
Import ConfidenceCalculator.

(** The dict returned by [ProfileFinder.find_profile]. *)
Record ProfileResult := {
  url : string;
  initial_confidence : Q
}.

(** The dict returned by [hunt_profile]; the fields are the keys Nome,
    E-mail, Empresa, Confiabilidade, LinkedIn, Cargo Atual, Experiência
    Anterior, Formação, Habilidades principais and Análise do Perfil.  The
    analysis is whatever [retry_async] returned, [None] included. *)
Record HuntResult := {
  Nome : string;
  E_mail : string;
  Empresa : string;
  Confiabilidade : string;
  LinkedIn : string;
  Cargo_Atual : string;
  Experiencia_Anterior : list Experience;
  Formacao : list Education;
  Habilidades_principais : list string;
  Analise_do_Perfil : option string
}.

Section Hunt.

Variable W : Type.
Variable E : Type.
Variable time_time : W -> Q * W.
Variable asyncio_sleep : Q -> W -> W.
Variable random_randint : Z -> Z -> W -> Z * W.
Variable random_uniform : Q -> Q -> W -> Q * W.
Variable print : string -> W -> W.
Variable retry_message : Z -> Q -> string.
Variable give_up_message : Z -> string.

(** config/settings.py: read from the environment. *)
Variable MAX_RETRIES : Z.
Variable RETRY_DELAY : Q.
Variable BACKOFF_FACTOR : Q.

(** [isinstance(e, Exception)], and the exceptions raised by subscripting
    or calling a method of [None]. *)
Variable is_Exception : E -> bool.
Variable TypeError : E.
Variable AttributeError : E.

(** The three components behind the remote stages. *)
Variable find_profile : string -> string -> string -> M W E ProfileResult.
Variable scrape_profile : string -> M W E ProfileData.
Variable analyze_profile : ProfileData -> M W E string.

Variable unicode_to_ascii : string -> string.
Variable ratio : string -> string -> Q.
(** The text of a float inside an f-string. *)
Variable float_str : Q -> string.

(** [retry_async(f, max_retries=MAX_RETRIES, retry_delay=RETRY_DELAY,
    backoff_factor=BACKOFF_FACTOR)], with the default [exceptions]. *)
Definition with_retry {A : Type} (f : M W E A) : M W E (option A) :=
  retry_async W E asyncio_sleep random_uniform print retry_message
    give_up_message A f MAX_RETRIES is_Exception BACKOFF_FACTOR RETRY_DELAY.

Definition limiter_wait : RateLimiter -> W -> RateLimiter * W :=
  wait W time_time asyncio_sleep random_randint.

Local Open Scope string_scope.

(** The result of the branch [if not profile_url]. *)
Definition not_found_result (name email company : string) : HuntResult :=
  {| Nome := name;
     E_mail := email;
     Empresa := company;
     Confiabilidade := "0%";
     LinkedIn := "Perfil não encontrado";
     Cargo_Atual := "N/A";
     Experiencia_Anterior := [];
     Formacao := [];
     Habilidades_principais := [];
     Analise_do_Perfil :=
       Some "Não foi possível encontrar um perfil do LinkedIn correspondente aos dados fornecidos." |}.

(** [hunt_profile]; the state is the hunter's rate limiter and the world. *)
Definition hunt_profile (rate_limiter : RateLimiter)
    (name email company : string) (w : W)
  : outcome E HuntResult * (RateLimiter * W) :=
  let w := print ("Buscando perfil para: " ++ name ++ " (" ++ email
                  ++ ") na empresa " ++ company ++ "...") w in
  let (rate_limiter, w) := limiter_wait rate_limiter w in
  match with_retry (find_profile name email company) w with
  | (Raised e, w) => (Raised e, (rate_limiter, w))
  | (Returned None, w) => (Raised TypeError, (rate_limiter, w))
  | (Returned (Some profile_result), w) =>
      let profile_url := url profile_result in
      if negb (Py.truthy profile_url) then
        (Returned (not_found_result name email company), (rate_limiter, w))
      else
        let w := print ("Perfil encontrado: " ++ profile_url) w in
        let w := print "Extraindo dados do perfil..." w in
        let (rate_limiter, w) := limiter_wait rate_limiter w in
        match with_retry (scrape_profile profile_url) w with
        | (Raised e, w) => (Raised e, (rate_limiter, w))
        | (Returned None, w) =>
            let w := print "Calculando confiabilidade..." w in
            (Raised AttributeError, (rate_limiter, w))
        | (Returned (Some profile_data), w) =>
            let w := print "Calculando confiabilidade..." w in
            let input_data :=
              {| name := Some name; email := Some email;
                 input_company := Some company |} in
            let confidence :=
              calculate_confidence unicode_to_ascii ratio
                input_data profile_data in
            let w := print "Analisando perfil com IA..." w in
            let (rate_limiter, w) := limiter_wait rate_limiter w in
            match with_retry (analyze_profile profile_data) w with
            | (Raised e, w) => (Raised e, (rate_limiter, w))
            | (Returned analysis, w) =>
                (Returned
                   {| Nome := name;
                      E_mail := email;
                      Empresa := company;
                      Confiabilidade := float_str confidence ++ "%";
                      LinkedIn := profile_url;
                      Cargo_Atual := get (headline profile_data) "N/A";
                      Experiencia_Anterior :=
                        get (experience profile_data) [];
                      Formacao := get (education profile_data) [];
                      Habilidades_principais := get (skills profile_data) [];
                      Analise_do_Perfil := analysis |},
                 (rate_limiter, w))
            end
        end
  end.

End Hunt.

End Hunter.

(* ------------------------------------------------------------------ *)
(** ** Vocabulary of the statements *)

Module BlockSpec.

Import BlockDetector.

(** The closed set of block kinds, in the order of [PATTERNS]. *)
Definition block_kinds : list string :=
  [ "rate_limit"; "security_check"; "login_required"; "account_restricted";
    "not_found"; "private_profile"; "ip_block" ].

(** A detection result is consistent when its flag says what its list of
    kinds says. *)
Definition consistent (r : DetectionResult) : Prop :=
  is_blocked r = true <-> block_types r <> [].

(** The priority order of [get_recommended_action], each kind with its
    action. *)
Definition priority_table : list (string * string) :=
  [ ("account_restricted", "stop");
    ("ip_block", "change_proxy");
    ("security_check", "manual_intervention");
    ("rate_limit", "wait");
    ("login_required", "login");
    ("not_found", "skip");
    ("private_profile", "skip") ].

(** A rate-limited result with a parsed wait duration. *)
Definition rate_limited (v : Z) (u : string) : DetectionResult :=
  {| is_blocked := true;
     block_types := ["rate_limit"];
     details :=
       Some {| error_messages := None;
               wait_time := Some {| value := v; unit := u |} |} |}.

(** The result of the spec's example: both rate_limit and
    account_restricted were detected. *)
Definition rate_limited_and_restricted : DetectionResult :=
  {| is_blocked := true;
     block_types := ["rate_limit"; "account_restricted"];
     details := Some {| error_messages := None; wait_time := None |} |}.

End BlockSpec.

(** Observing [retry_async]: the world is paired with a log of the
    outcomes of the invocations of the wrapped action, in order.  Only the
    action writes to the log. *)
Module RetrySpec.

Import ErrorHandling.

Section Log.

Variable W : Type.
Variable E : Type.
Variable A : Type.

Definition Log : Type := list (outcome E A).

Definition logged (func : M W E A) : M (W * Log) E A :=
  fun wl =>
    let (r, w') := func (fst wl) in (r, (w', snd wl ++ [r])).

Definition keep_log {X : Type} (f : W -> X * W) (wl : W * Log)
  : X * (W * Log) :=
  let (x, w') := f (fst wl) in (x, (w', snd wl)).

Definition keep_log_exec (f : W -> W) (wl : W * Log) : W * Log :=
  (f (fst wl), snd wl).

(** A failure that [retry_async] catches. *)
Definition caught (exceptions : E -> bool) (o : outcome E A) : Prop :=
  match o with
  | Raised e => exceptions e = true
  | Returned _ => False
  end.

End Log.

(** A scripted action: each invocation consumes the next outcome of the
    script; the clock, the generator and the output do nothing. *)
Definition Script : Type := list (outcome string Z).

Definition play : M Script string Z :=
  fun script =>
    match script with
    | o :: rest => (o, rest)
    | [] => (Raised "script exhausted", [])
    end.

Definition fails_twice_then_succeeds : Script :=
  [ Raised "timeout"; Raised "timeout"; Returned 42%Z; Returned 7%Z ].

End RetrySpec.

(** What the statements about URL extraction speak of. *)
Module ExtractSpec.

Import ProfileFinder.













Definition q : string := String double_quote EmptyString.


End ExtractSpec.

(** ** Vocabulary: the error of binary64 arithmetic *)

Module FloatSpec.

Import ConfidenceCalculator.

Local Open Scope Q_scope.

(** The exponent of the grid on which [binary64] rounds a non-negative
    [x]: the binary64 numbers around [x] are the multiples of
    [2 ^ (grid x - 1074)]. *)
Definition grid (x : Q) : Z :=
  Z.max 0 (Z.log2 (Qfloor (x * inject_Z subnormal_scale)) - 52).

(** Half a unit in the last place of 1, and half the distance between the
    subnormal numbers. *)
Definition unit_roundoff : Q := 1 # 9007199254740992.
Definition tiny : Q := 1 / (2 * inject_Z subnormal_scale).

(** The error of one operation, relative to a bound of at least 1 on its
    exact result. *)
Definition roundoff : Q := unit_roundoff + tiny.

(** A bound on the distance between [final_score] and the exact
    percentage: one part in ten to the twelfth. *)
Definition float_slack : Q := 1 # 1000000000000.

End FloatSpec.

(* ================================================================== *)
(** * Part II: properties                                              *)
(* ================================================================== *)

(** ** Block detection *)

Section BlockDetectorFacts.

Import BlockDetector.
Import BlockSpec.

Lemma keys_dict_set (V : Type) (k : string) (v : V) (d : list (string * V)) :
  In k (Py.keys d) -> Py.keys (Py.dict_set k v d) = Py.keys d.
Proof.
  induction d as [|[k' v'] d IH]; simpl; [tauto|].
  intros [Hk|Hk]; destruct (String.eqb_spec k k') as [->|Hne]; simpl;
    try reflexivity.
  - congruence.
  - f_equal. apply IH, Hk.
Qed.

Lemma table_keys_in (table : list (string * list string))
    (keys : list string) :
  forallb (fun kv => Py.mem (fst kv) keys) table = true ->
  Forall (fun kv => In (fst kv) keys) table.
Proof.
  intros H. apply Forall_forall. intros kv Hkv.
  rewrite forallb_forall in H. specialize (H kv Hkv).
  unfold Py.mem in H. apply existsb_exists in H as [k [Hk He]].
  apply String.eqb_eq in He. rewrite He. exact Hk.
Qed.

Lemma keys_mark_table hit table blocks :
  Forall (fun kv => In (fst kv) (Py.keys blocks)) table ->
  Py.keys (mark_table hit table blocks) = Py.keys blocks.
Proof.
  revert blocks.
  induction table as [|[bt ps] table IH]; intros blocks Hall; simpl;
    [reflexivity|].
  inversion Hall as [|? ? Hbt Hrest]; subst; simpl in Hbt.
  destruct (existsb hit ps).
  - rewrite IH; [apply keys_dict_set, Hbt|].
    rewrite keys_dict_set by exact Hbt. exact Hrest.
  - apply IH, Hrest.
Qed.

Lemma keys_mark_selected (Soup Element : Type)
    (select : Soup -> string -> option (list Element)) soup table blocks :
  Forall (fun kv => In (fst kv) (Py.keys blocks)) table ->
  Py.keys (mark_selected Soup Element select soup table blocks)
  = Py.keys blocks.
Proof.
  revert blocks.
  induction table as [|[bt ss] table IH]; intros blocks Hall; simpl;
    [reflexivity|].
  inversion Hall as [|? ? Hbt Hrest]; subst; simpl in Hbt.
  destruct (any_selected Soup Element select soup ss) as [[|]|];
    [|apply IH, Hrest|reflexivity].
  rewrite IH; [apply keys_dict_set, Hbt|].
  rewrite keys_dict_set by exact Hbt. exact Hrest.
Qed.

Lemma keys_check_redirects (url : string) (blocks : Blocks) :
  In "login_required" (Py.keys blocks) ->
  In "security_check" (Py.keys blocks) ->
  Py.keys (_check_redirects url blocks) = Py.keys blocks.
Proof.
  intros Hl Hs. unfold _check_redirects.
  destruct (Py.contains "linkedin.com/login" url
            && negb (flag blocks "login_required")).
  - destruct (_ && _).
    + rewrite !keys_dict_set; try reflexivity; try exact Hl.
      rewrite keys_dict_set; assumption.
    + apply keys_dict_set, Hl.
  - destruct (_ && _); [apply keys_dict_set, Hs|reflexivity].
Qed.

Lemma flagged_iff (blocks : Blocks) :
  existsb (fun kv => snd kv) blocks = true
  <-> map fst (filter (fun kv => snd kv) blocks) <> [].
Proof.
  induction blocks as [|[k [|]] blocks IH]; simpl.
  - split; [discriminate|congruence].
  - split; [discriminate|reflexivity].
  - exact IH.
Qed.

Lemma flagged_in_keys (blocks : Blocks) :
  incl (map fst (filter (fun kv => snd kv) blocks)) (Py.keys blocks).
Proof.
  intros k Hk. apply in_map_iff in Hk as [kv [<- Hkv]].
  apply filter_In in Hkv as [Hkv _]. apply in_map, Hkv.
Qed.

Section Detector.

Variable re_search : string -> string -> bool.
Variable re_search_groups : string -> string -> option (string * string).
Variable int_of_str : string -> option Z.
Variable Soup Element : Type.
Variable BeautifulSoup : string -> option Soup.
Variable select : Soup -> string -> option (list Element).
Variable text : Element -> string.

Let detect :=
  detect_blocks re_search re_search_groups int_of_str Soup Element
    BeautifulSoup select text.

(** The four passes leave the keys of the working dict as they were
    created from [PATTERNS]. *)
Lemma detect_blocks_keys (html url : string) :
  incl (block_types (detect html url)) block_kinds.
Proof.
  unfold detect, detect_blocks; simpl block_types.
  eapply incl_tran; [apply flagged_in_keys|].
  set (b0 := map (fun kv : string * list string => (fst kv, false)) PATTERNS).
  assert (K0 : Py.keys b0 = block_kinds) by reflexivity.
  set (b1 := _check_text_patterns re_search html b0).
  assert (K1 : Py.keys b1 = block_kinds).
  { unfold b1, _check_text_patterns. rewrite keys_mark_table; [exact K0|].
    rewrite K0. apply table_keys_in. vm_compute. reflexivity. }
  set (b2 := _check_html_elements Soup Element BeautifulSoup select html b1).
  assert (K2 : Py.keys b2 = block_kinds).
  { unfold b2, _check_html_elements. destruct (BeautifulSoup html); [|exact K1].
    rewrite keys_mark_selected; [exact K1|].
    rewrite K1. apply table_keys_in. vm_compute. reflexivity. }
  set (b3 := _check_url_patterns re_search url b2).
  assert (K3 : Py.keys b3 = block_kinds).
  { unfold b3, _check_url_patterns. rewrite keys_mark_table; [exact K2|].
    rewrite K2. apply table_keys_in. vm_compute. reflexivity. }
  rewrite keys_check_redirects.
  - change (incl (Py.keys b3) block_kinds). rewrite K3. apply incl_refl.
  - change (In "login_required" (Py.keys b3)). rewrite K3. simpl; tauto.
  - change (In "security_check" (Py.keys b3)). rewrite K3. simpl; tauto.
Qed.

(** C10. For every HTML string and URL the result of [detect_blocks] is
    consistent: [is_blocked] is true if and only if [block_types] is not
    empty, and every element of [block_types] is one of the seven kinds
    rate_limit, security_check, login_required, account_restricted,
    not_found, private_profile, ip_block. *)
Theorem detect_blocks_consistent (html url : string) :
  (is_blocked (detect html url) = true <-> block_types (detect html url) <> [])
  /\ Forall (fun k => In k block_kinds) (block_types (detect html url)).
Proof.
  split.
  - unfold detect, detect_blocks; simpl. apply flagged_iff.
  - apply Forall_forall. intros k Hk. exact (detect_blocks_keys html url k Hk).
Qed.

(** A message that only the second wait-time pattern matches reaches the
    details with the unit as it was written on the page. *)
Lemma scan_patterns_second_pattern (msg g1 g2 : string) (n : Z) (d : Details) :
  re_search_groups "try\s+again\s+in\s+(\d+)\s+(minutes|hours|days)" msg = None ->
  re_search_groups "tente\s+novamente\s+em\s+(\d+)\s+(minutos|horas|dias)" msg
    = Some (g1, g2) ->
  int_of_str g1 = Some n ->
  wait_time (scan_patterns re_search_groups int_of_str wait_time_patterns
               [msg] d)
  = Some {| value := n; unit := g2 |}.
Proof.
  intros H1 H2 H3. unfold wait_time_patterns. simpl.
  rewrite H1. simpl. rewrite H2, H3. reflexivity.
Qed.

End Detector.

Lemma mem_In (k : string) (l : list string) : In k l -> Py.mem k l = true.
Proof.
  intros H. unfold Py.mem. apply existsb_exists. exists k. split; [exact H|].
  apply String.eqb_refl.
Qed.

Local Open Scope Z_scope.

(** C2. For every consistent detection result whose [block_types] contain
    account_restricted, [get_recommended_action] answers stop with a wait of
    86400 seconds, whatever other kinds are present; and for every
    consistent blocked result the answer is the one of the first kind, in
    the order account_restricted, ip_block, security_check, rate_limit,
    login_required, not_found, private_profile, that [block_types]
    contains. *)
Theorem account_restricted_stops_first (r : DetectionResult) :
  consistent r ->
  (In "account_restricted" (block_types r) ->
   action (get_recommended_action r) = "stop"
   /\ reason (get_recommended_action r) = Some "account_restricted"
   /\ action_wait_time (get_recommended_action r) = 86400)
  /\ (block_types r <> [] ->
      match find (fun ka => Py.mem (fst ka) (block_types r)) priority_table with
      | Some (kind, act) =>
          reason (get_recommended_action r) = Some kind
          /\ action (get_recommended_action r) = act
      | None =>
          reason (get_recommended_action r) = Some "unknown_block"
          /\ action (get_recommended_action r) = "wait"
          /\ action_wait_time (get_recommended_action r) = 1800
      end).
Proof.
  intros Hc. split.
  - intros Hin.
    assert (Hb : is_blocked r = true).
    { apply Hc. intros E. rewrite E in Hin. exact Hin. }
    unfold get_recommended_action. rewrite Hb. simpl negb. cbv iota.
    rewrite (mem_In _ _ Hin). simpl. repeat split.
  - intros Hne. apply Hc in Hne.
    unfold get_recommended_action. rewrite Hne. simpl negb. cbv iota.
    unfold priority_table. simpl find.
    destruct (Py.mem "account_restricted" (block_types r));
      [simpl; repeat split|].
    destruct (Py.mem "ip_block" (block_types r)); [simpl; repeat split|].
    destruct (Py.mem "security_check" (block_types r));
      [simpl; repeat split|].
    destruct (Py.mem "rate_limit" (block_types r)); [simpl; repeat split|].
    destruct (Py.mem "login_required" (block_types r));
      [simpl; repeat split|].
    destruct (Py.mem "not_found" (block_types r)); [simpl; repeat split|].
    destruct (Py.mem "private_profile" (block_types r));
      simpl; repeat split.
Qed.

Lemma account_restricted_stops_first_witness :
  consistent (rate_limited_and_restricted)
  /\ action (get_recommended_action rate_limited_and_restricted) = "stop".
Proof.
  assert (Hc : consistent rate_limited_and_restricted).
  { unfold consistent. simpl. split; intros _; [discriminate|reflexivity]. }
  split; [exact Hc|].
  refine (proj1 (proj1 (account_restricted_stops_first
                          rate_limited_and_restricted Hc) _)).
  simpl. right. left. reflexivity.
Defined.

(** The English units are converted, and a result without a parsed
    duration waits 3600 seconds. *)
Lemma rate_limit_wait_english (v : Z) :
  action_wait_time (get_recommended_action (rate_limited v "minutes")) = v * 60
  /\ action_wait_time (get_recommended_action (rate_limited v "hours"))
     = v * 3600
  /\ action_wait_time (get_recommended_action (rate_limited v "days"))
     = v * 86400
  /\ action_wait_time
       (get_recommended_action
          {| is_blocked := true; block_types := ["rate_limit"];
             details := Some {| error_messages := None; wait_time := None |} |})
     = 3600.
Proof. repeat split. Qed.

(** C4. On the localized units that the second wait-time pattern of the
    detector parses (minutos, horas, dias) the conversion does not take
    place: five minutos, two horas and one dia all wait the default 3600
    seconds instead of 300, 7200 and 86400. *)
Theorem rate_limit_wait_localized_units :
  action_wait_time (get_recommended_action (rate_limited 5 "minutos")) = 3600
  /\ action_wait_time (get_recommended_action (rate_limited 2 "horas")) = 3600
  /\ action_wait_time (get_recommended_action (rate_limited 1 "dias")) = 3600
  /\ action_wait_time (get_recommended_action (rate_limited 5 "minutos"))
     <> 5 * 60.
Proof. repeat split. discriminate. Qed.

End BlockDetectorFacts.

(** ** Retry with back-off *)

Section RetryFacts.

Import ErrorHandling.
Import RetrySpec.

Variable W : Type.
Variable E : Type.
Variable A : Type.
Variable asyncio_sleep : Q -> W -> W.
Variable random_uniform : Q -> Q -> W -> Q * W.
Variable print : string -> W -> W.
Variable retry_message : Z -> Q -> string.
Variable give_up_message : Z -> string.
Variable func : M W E A.
Variable max_retries : Z.
Variable exceptions : E -> bool.
Variable backoff_factor : Q.

(** [retry_async] on the logged action, every other effect keeping the
    log. *)
Let observed_loop :=
  retry_loop (W * Log E A) E
    (fun d => keep_log_exec W E A (asyncio_sleep d))
    (fun lo hi => keep_log W E A (random_uniform lo hi))
    (fun msg => keep_log_exec W E A (print msg))
    retry_message give_up_message A (logged W E A func)
    max_retries exceptions backoff_factor.

Local Open Scope Z_scope.

Lemma retry_loop_log (n : nat) :
  forall (k : nat) (delay : Q) (w : W) (log0 : Log E A) res w' log,
    Z.of_nat k + Z.of_nat n = max_retries + 1 ->
    observed_loop (map Z.of_nat (seq k n)) delay (w, log0) = (res, (w', log)) ->
    exists new : Log E A,
      log = (log0 ++ new)%list
      /\ (length new <= n)%nat
      /\ match res with
         | Returned (Some v) =>
             exists fails, new = (fails ++ [Returned v])%list
                           /\ Forall (caught E A exceptions) fails
         | Returned None => n = 0%nat
         | Raised e =>
             exists fails, new = (fails ++ [Raised e])%list
                           /\ Forall (caught E A exceptions) fails
                           /\ (exceptions e = true -> length new = n)
         end.
Proof.
  induction n as [|n IH]; intros k delay w log0 res w' log Hk Hrun.
  - simpl in Hrun. inversion Hrun; subst. exists []. rewrite app_nil_r.
    split; [reflexivity|]. split; [simpl; lia|reflexivity].
  - cbn [seq map] in Hrun. unfold observed_loop in Hrun.
    cbn [retry_loop] in Hrun. unfold logged at 1 in Hrun.
    cbn [fst snd] in Hrun.
    destruct (func w) as [[v|e] w1] eqn:Hf.
    + inversion Hrun; subst. exists [Returned v].
      split; [reflexivity|]. split; [simpl; lia|].
      exists []. split; [reflexivity|constructor].
    + destruct (exceptions e) eqn:He.
      * destruct (Z.ltb_spec (Z.of_nat k) max_retries) as [Hlt|Hge].
        -- unfold keep_log at 1 in Hrun. cbn [fst snd] in Hrun.
           destruct (random_uniform (8 # 10) (12 # 10) w1) as [jitter w2].
           unfold keep_log_exec at 1 2 in Hrun. cbn [fst snd] in Hrun.
           fold observed_loop in Hrun.
           apply IH in Hrun; [|lia].
           destruct Hrun as [new [Hlog [Hlen Hres]]].
           unfold keep_log_exec in Hlog. cbn [fst snd] in Hlog.
           exists (Raised e :: new).
           split; [rewrite Hlog, <- app_assoc; reflexivity|].
           split; [simpl; lia|].
           destruct res as [[v|]|e'].
           ++ destruct Hres as [fails [-> Hall]].
              exists (Raised e :: fails). split; [reflexivity|].
              constructor; [exact He|exact Hall].
           ++ lia.
           ++ destruct Hres as [fails [-> [Hall Hn]]].
              exists (Raised e :: fails). split; [reflexivity|].
              split; [constructor; [exact He|exact Hall]|].
              intros He'. simpl. f_equal. apply Hn, He'.
        -- unfold keep_log_exec in Hrun. cbn [fst snd] in Hrun.
           inversion Hrun; subst. exists [Raised e].
           split; [reflexivity|]. split; [simpl; lia|].
           exists []. split; [reflexivity|]. split; [constructor|].
           intros _. simpl. lia.
      * inversion Hrun; subst. exists [Raised e].
        split; [reflexivity|]. split; [simpl; lia|].
        exists []. split; [reflexivity|]. split; [constructor|].
        rewrite He. discriminate.
Qed.

(** C7. [retry_async] invokes the wrapped action at most
    [max_retries + 1] times.  When it returns, the value is the outcome of
    the last invocation and every earlier invocation failed with a caught
    exception: it is the first success, and nothing is invoked after it.
    When it raises, the exception is the one of the last invocation, every
    earlier invocation failed with a caught exception, and either the
    exception is not among the caught kinds (it propagates at once,
    whatever the number of attempts left) or all [max_retries + 1] attempts
    were made. *)
Theorem retry_async_attempts (retry_delay : Q) (w : W)
    (res : outcome E (option A)) (w' : W) (log : Log E A) :
  0 <= max_retries ->
  retry_async (W * Log E A) E
    (fun d => keep_log_exec W E A (asyncio_sleep d))
    (fun lo hi => keep_log W E A (random_uniform lo hi))
    (fun msg => keep_log_exec W E A (print msg))
    retry_message give_up_message A (logged W E A func)
    max_retries exceptions backoff_factor retry_delay (w, [])
  = (res, (w', log)) ->
  Z.of_nat (length log) <= max_retries + 1
  /\ match res with
     | Returned (Some v) =>
         exists fails, log = (fails ++ [Returned v])%list
                       /\ Forall (caught E A exceptions) fails
     | Returned None => False
     | Raised e =>
         exists fails, log = (fails ++ [Raised e])%list
                       /\ Forall (caught E A exceptions) fails
                       /\ (exceptions e = true ->
                           Z.of_nat (length log) = max_retries + 1)
     end.
Proof.
  intros Hpos Hrun. unfold retry_async, range in Hrun.
  apply (retry_loop_log (Z.to_nat (max_retries + 1)) 0) in Hrun; [|simpl; lia].
  destruct Hrun as [new [Hlog [Hlen Hres]]]. simpl in Hlog. subst new.
  split; [lia|].
  destruct res as [[v|]|e].
  - exact Hres.
  - lia.
  - destruct Hres as [fails [Hl [Hall Hn]]].
    exists fails. split; [exact Hl|]. split; [exact Hall|].
    intros He. rewrite (Hn He). lia.
Qed.

End RetryFacts.

Section RetryExamples.

Import ErrorHandling.
Import RetrySpec.

(** The scripted world: sleeping and printing change nothing, the jitter
    is always 1. *)
Let run_script (exceptions : string -> bool) (max_retries : Z)
    (script : Script) :=
  retry_async (Script * Log string Z) string
    (fun _ => keep_log_exec Script string Z (fun s => s))
    (fun _ _ => keep_log Script string Z (fun s => (1%Q, s)))
    (fun _ => keep_log_exec Script string Z (fun s => s))
    (fun _ _ => EmptyString) (fun _ => EmptyString) Z
    (logged Script string Z play)
    max_retries exceptions (2 # 1)%Q (2 # 1)%Q (script, []).

(** An action that fails twice and then succeeds, with three retries
    allowed, is invoked three times; its value is returned and the rest of
    the script is left untouched. *)
Example retry_fails_twice_then_succeeds :
  run_script (fun _ => true) 3 fails_twice_then_succeeds
  = (Returned (Some 42%Z),
     ([Returned 7%Z],
      [Raised "timeout"; Raised "timeout"; Returned 42%Z])).
Proof. reflexivity. Qed.

(** Four failures with three retries allowed: the fourth is raised. *)
Example retry_all_fail_reraises_last :
  run_script (fun _ => true) 3
    [Raised "e1"; Raised "e2"; Raised "e3"; Raised "e4"; Returned 1%Z]
  = (Raised "e4",
     ([Returned 1%Z],
      [Raised "e1"; Raised "e2"; Raised "e3"; Raised "e4"])).
Proof. reflexivity. Qed.

(** A failure outside the caught kinds ends the loop at once. *)
Example retry_other_kind_propagates :
  run_script (fun e => negb (String.eqb e "fatal")) 3
    [Raised "timeout"; Raised "fatal"; Returned 1%Z]
  = (Raised "fatal", ([Returned 1%Z], [Raised "timeout"; Raised "fatal"])).
Proof. reflexivity. Qed.

Lemma retry_async_attempts_witness :
  (0 <= 3)%Z
  /\ (Z.of_nat (length [Raised "timeout"; Raised "timeout";
                        @Returned string Z 42%Z]) <= 3 + 1)%Z.
Proof.
  split; [lia|].
  refine (proj1 (retry_async_attempts Script string Z
    (fun _ s => s) (fun _ _ s => (1%Q, s)) (fun _ s => s)
    (fun _ _ => EmptyString) (fun _ => EmptyString) play 3%Z
    (fun _ => true) (2 # 1)%Q (2 # 1)%Q fails_twice_then_succeeds
    (Returned (Some 42%Z)) [Returned 7%Z]
    [Raised "timeout"; Raised "timeout"; Returned 42%Z] _ _)).
  - lia.
  - reflexivity.
Defined.

End RetryExamples.

(** ** The orchestrator *)

Section HunterFacts.

Import ErrorHandling.
Import ConfidenceCalculator.
Import Hunter.

Variable W : Type.
Variable E : Type.
Variable time_time : W -> Q * W.
Variable asyncio_sleep : Q -> W -> W.
Variable random_randint : Z -> Z -> W -> Z * W.
Variable random_uniform : Q -> Q -> W -> Q * W.
Variable print : string -> W -> W.
Variable retry_message : Z -> Q -> string.
Variable give_up_message : Z -> string.
Variable MAX_RETRIES : Z.
Variable RETRY_DELAY : Q.
Variable BACKOFF_FACTOR : Q.
Variable is_Exception : E -> bool.
Variable TypeError : E.
Variable AttributeError : E.
Variable find_profile : string -> string -> string -> M W E ProfileResult.
Variable scrape_profile : string -> M W E ProfileData.
Variable analyze_profile : ProfileData -> M W E string.
Variable unicode_to_ascii : string -> string.
Variable ratio : string -> string -> Q.
Variable float_str : Q -> string.

Let hunt :=
  hunt_profile W E time_time asyncio_sleep random_randint random_uniform print
    retry_message give_up_message MAX_RETRIES RETRY_DELAY BACKOFF_FACTOR
    is_Exception TypeError AttributeError find_profile scrape_profile
    analyze_profile unicode_to_ascii ratio float_str.

Let search (name email company : string) :=
  with_retry W E asyncio_sleep random_uniform print retry_message
    give_up_message MAX_RETRIES RETRY_DELAY BACKOFF_FACTOR is_Exception
    (find_profile name email company).

Let pace := limiter_wait W time_time asyncio_sleep random_randint.

(** C8. Whenever the retried profile search returns a result with an empty
    URL, [hunt_profile] returns (it does not raise) a result with all ten
    fields set: the three inputs, the confidence 0%, the not-found text as
    profile URL, N/A as current title, empty experience, education and
    skills lists, and the fixed not-found analysis.  Nothing happens after
    the search. *)
Theorem hunt_profile_not_found (rate_limiter : RateLimiter)
    (name email company : string) (w : W) (r : ProfileResult) (w2 : W) :
  let w0 :=
    print ("Buscando perfil para: " ++ name ++ " (" ++ email
           ++ ") na empresa " ++ company ++ "...")%string w in
  search name email company (snd (pace rate_limiter w0))
  = (Returned (Some r), w2) ->
  url r = EmptyString ->
  exists result : HuntResult,
    hunt rate_limiter name email company w
    = (Returned result, (fst (pace rate_limiter w0), w2))
    /\ Nome result = name
    /\ E_mail result = email
    /\ Empresa result = company
    /\ Confiabilidade result = "0%"
    /\ LinkedIn result = "Perfil não encontrado"
    /\ Cargo_Atual result = "N/A"
    /\ Experiencia_Anterior result = []
    /\ Formacao result = []
    /\ Habilidades_principais result = []
    /\ Analise_do_Perfil result
       = Some "Não foi possível encontrar um perfil do LinkedIn correspondente aos dados fornecidos.".
Proof.
  intros w0 Hsearch Hurl.
  exists (not_found_result name email company).
  split; [|repeat split].
  unfold hunt, hunt_profile. fold w0. fold pace.
  destruct (pace rate_limiter w0) as [limiter1 w1] eqn:Hpace.
  cbn [fst snd] in *.
  fold (search name email company). rewrite Hsearch, Hurl. reflexivity.
Qed.

End HunterFacts.

Section HunterExample.

Import ErrorHandling.
Import ConfidenceCalculator.
Import Hunter.

(** A world that counts the searches; the finder finds nothing. *)
Let finds_nothing (name email company : string) : M nat string ProfileResult :=
  fun calls => (Returned {| url := EmptyString; initial_confidence := 0%Q |},
                S calls).

Let hunt_nothing :=
  hunt_profile nat string (fun w => (0%Q, w)) (fun _ w => w)
    (fun lo _ w => (lo, w)) (fun lo _ w => (lo, w)) (fun _ w => w)
    (fun _ _ => EmptyString) (fun _ => EmptyString) 3%Z (5 # 1)%Q (2 # 1)%Q
    (fun _ => true) "TypeError" "AttributeError" finds_nothing
    (fun _ => raise "unreachable") (fun _ => raise "unreachable")
    Unicodedata.nfkd_ascii Difflib.ratio (fun _ => EmptyString).

Lemma hunt_profile_not_found_witness :
  exists result : HuntResult,
    hunt_nothing
      (RateLimiter_init 5) "Nonexistent User" "nonexistent@example.com"
      "Unknown Company" 0
    = (Returned result,
       ({| requests_per_minute := 5; jitter_min_ms := 500;
           jitter_max_ms := 2000; interval := (60 / inject_Z 5)%Q;
           last_request_time := 0%Q |}, 1))
    /\ Confiabilidade result = "0%"
    /\ Experiencia_Anterior result = [].
Proof.
  destruct (hunt_profile_not_found nat string (fun w => (0%Q, w))
    (fun _ w => w) (fun lo _ w => (lo, w)) (fun lo _ w => (lo, w))
    (fun _ w => w) (fun _ _ => EmptyString) (fun _ => EmptyString) 3%Z
    (5 # 1)%Q (2 # 1)%Q (fun _ => true) "TypeError" "AttributeError"
    finds_nothing (fun _ => raise "unreachable") (fun _ => raise "unreachable")
    Unicodedata.nfkd_ascii Difflib.ratio (fun _ => EmptyString)
    (RateLimiter_init 5) "Nonexistent User" "nonexistent@example.com"
    "Unknown Company" 0
    {| url := EmptyString; initial_confidence := 0%Q |} 1
    eq_refl eq_refl) as [result [Hrun [_ [_ [_ [Hc [_ [_ [He _]]]]]]]]].
  exists result. split; [exact Hrun|]. split; [exact Hc|exact He].
Defined.

End HunterExample.

(** ** Extraction of profile URLs *)

Section ExtractFacts.

Import ProfileFinder.
Import ExtractSpec.

Lemma mem_true_iff (x : string) (l : list string) :
  Py.mem x l = true <-> In x l.
Proof.
  unfold Py.mem. rewrite existsb_exists. split.
  - intros [y [Hy He]]. apply String.eqb_eq in He. subst. exact Hy.
  - intros H. exists x. split; [exact H|apply String.eqb_refl].
Qed.









































End ExtractFacts.

(** ** The confidence calculator *)

Section CalculatorFacts.

Import ConfidenceCalculator.

Variable unicode_to_ascii : string -> string.
Variable ratio : string -> string -> Q.

Let normalize := _normalize_text unicode_to_ascii.
Let compare_names := _compare_names unicode_to_ascii ratio.
Let compare_company := _compare_company unicode_to_ascii ratio.
Let compare_email := _compare_email unicode_to_ascii ratio.

Lemma truthy_nonempty (s : string) : s <> EmptyString -> Py.truthy s = true.
Proof. destruct s; [congruence|reflexivity]. Qed.

(** C6 (amended). For every pair of non-empty input name and profile name
    that are identical after normalization, the name score is 1; when
    either name is empty the score is 0, whatever the other name is. *)
Theorem compare_names_identical (input_name profile_name : string) :
  (input_name <> EmptyString ->
   profile_name <> EmptyString ->
   normalize input_name = normalize profile_name ->
   compare_names input_name profile_name = 1%Q)
  /\ (input_name = EmptyString \/ profile_name = EmptyString ->
      compare_names input_name profile_name = 0%Q).
Proof.
  unfold compare_names, _compare_names. split.
  - intros Hi Hp Hn.
    rewrite (truthy_nonempty _ Hi), (truthy_nonempty _ Hp). simpl.
    fold normalize. rewrite Hn, String.eqb_refl. reflexivity.
  - intros [-> | ->]; simpl; [reflexivity|].
    rewrite orb_true_r. reflexivity.
Qed.

(** The pattern loop answers 0.9 or 0.7 when it answers. *)
Lemma match_patterns_values (username : string) (patterns : list string)
    (score : Q) :
  match_patterns ratio username patterns = Some score ->
  score = (9 # 10)%Q \/ score = (7 # 10)%Q.
Proof.
  induction patterns as [|p patterns IH]; simpl; [discriminate|].
  destruct (String.eqb username p); [intros H; inversion H; tauto|].
  destruct (Qgtb (ratio username p) (8 # 10));
    [intros H; inversion H; tauto|exact IH].
Qed.

Lemma domain_score_values (input_email : string) (profile_data : ProfileData) :
  domain_score unicode_to_ascii input_email profile_data = (6 # 10)%Q
  \/ domain_score unicode_to_ascii input_email profile_data = (2 # 10)%Q.
Proof.
  unfold domain_score.
  destruct (_get_current_experience (get (experience profile_data) []))
    as [e|]; [|tauto].
  destruct (exp_truthy e && _); tauto.
Qed.

(** The values of the e-mail score. *)
Lemma compare_email_values (input_email : string) (profile_data : ProfileData) :
  In (compare_email input_email profile_data)
     [0%Q; (8 # 10)%Q; (9 # 10)%Q; (7 # 10)%Q; (6 # 10)%Q; (2 # 10)%Q].
Proof.
  unfold compare_email, _compare_email.
  destruct (negb (Py.truthy input_email)); [simpl; tauto|].
  destruct (username_match input_email) as [g|]; [|simpl; tauto].
  destruct (Py.contains _ _); [simpl; tauto|].
  match goal with
  | |- In (match ?o with Some _ => _ | None => _ end) _ =>
      destruct o as [score|] eqn:Hm
  end.
  - destruct (2 <=? _); [|discriminate].
    apply match_patterns_values in Hm as [-> | ->]; simpl; tauto.
  - destruct (domain_score_values input_email profile_data) as [-> | ->];
      simpl; tauto.
Qed.

(** C5 (amended). For every input email with a non-empty local part in
    front of an [@], the e-mail score is one of 0.8, 0.9, 0.7, 0.6 and 0.2,
    hence at least 0.2; for the empty email, and for every email without
    such a local part, it is exactly 0. *)
Theorem compare_email_floor (input_email : string) (profile_data : ProfileData) :
  (username_match input_email <> None ->
   In (compare_email input_email profile_data)
      [(8 # 10)%Q; (9 # 10)%Q; (7 # 10)%Q; (6 # 10)%Q; (2 # 10)%Q]
   /\ (2 # 10 <= compare_email input_email profile_data)%Q)
  /\ (input_email = EmptyString ->
      compare_email input_email profile_data = 0%Q)
  /\ (username_match input_email = None ->
      compare_email input_email profile_data = 0%Q).
Proof.
  split; [|split].
  - intros Hm.
    assert (Hin : In (compare_email input_email profile_data)
                     [(8 # 10)%Q; (9 # 10)%Q; (7 # 10)%Q; (6 # 10)%Q;
                      (2 # 10)%Q]).
    { pose proof (compare_email_values input_email profile_data) as Hv.
      destruct Hv as [Hz|Hv]; [|exact Hv].
      exfalso. revert Hz. unfold compare_email, _compare_email.
      destruct input_email as [|c s]; [exfalso; exact (Hm eq_refl)|].
      cbn [Py.truthy negb].
      destruct (username_match (String c s)) as [g|]; [|congruence].
      destruct (Py.contains _ _); [discriminate|].
      match goal with
      | |- 0%Q = match ?o with Some _ => _ | None => _ end -> _ =>
          destruct o as [score|] eqn:Hs
      end.
      - destruct (2 <=? _); [|discriminate].
        apply match_patterns_values in Hs as [-> | ->]; discriminate.
      - destruct (domain_score_values (String c s) profile_data)
          as [-> | ->]; discriminate. }
    split; [exact Hin|].
    simpl in Hin.
    destruct Hin as [<-|[<-|[<-|[<-|[<-|[]]]]]]; unfold Qle; simpl; lia.
  - intros ->. reflexivity.
  - intros Hm. unfold compare_email, _compare_email. rewrite Hm.
    destruct (negb (Py.truthy input_email)); reflexivity.
Qed.

Lemma match_patterns_exact (username : string) (earlier later : list string) :
  (forall p, In p earlier -> Qgtb (ratio username p) (8 # 10) = false) ->
  match_patterns ratio username (earlier ++ username :: later)
  = Some (9 # 10)%Q.
Proof.
  induction earlier as [|p earlier IH]; intros Hall; simpl.
  - rewrite String.eqb_refl. reflexivity.
  - destruct (String.eqb username p); [reflexivity|].
    rewrite (Hall p (or_introl eq_refl)). apply IH.
    intros p' Hp'. apply Hall. right. exact Hp'.
Qed.

(** Where the exact pattern is reached: the local part is not contained
    in the name without its spaces, and no pattern tried before the equal
    one is similar to the local part. *)
Lemma compare_email_pattern_reached (input_email : string)
    (profile_data : ProfileData) (g : string) (earlier later : list string) :
  let username := Py.lower g in
  let full := normalize (get (full_name profile_data) EmptyString) in
  username_match input_email = Some g ->
  Py.contains username (Py.lower (Py.remove_spaces full)) = false ->
  2 <= length (Py.split (Py.lower full)) ->
  name_patterns (Py.split (Py.lower full)) = (earlier ++ username :: later)%list ->
  (forall p, In p earlier -> Qgtb (ratio username p) (8 # 10) = false) ->
  compare_email input_email profile_data = (9 # 10)%Q.
Proof.
  intros username full Hm Hc Hlen Hpat Hall.
  unfold compare_email, _compare_email. rewrite Hm.
  destruct input_email as [|c s]; [discriminate|]. cbn [Py.truthy negb].
  fold normalize. fold full. fold username. rewrite Hc.
  apply Nat.leb_le in Hlen. rewrite Hlen, Hpat.
  rewrite (match_patterns_exact username earlier later Hall). reflexivity.
Qed.

(** A pattern that is similar to the local part without being equal to it
    ends the loop with 0.7, whatever comes after it. *)
Lemma match_patterns_similar_first (username pattern : string)
    (later : list string) :
  String.eqb username pattern = false ->
  Qgtb (ratio username pattern) (8 # 10) = true ->
  match_patterns ratio username (pattern :: later) = Some (7 # 10)%Q.
Proof. intros He Hr. simpl. rewrite He, Hr. reflexivity. Qed.

End CalculatorFacts.

(** ** The similarity ratio *)

Section DifflibFacts.

Import Difflib.

Variable pop : ascii -> bool.

(** The entries of a row from position [j] on are at most [i] and at most
    their position. *)
Fixpoint row_bound (i j : nat) (row : list nat) : Prop :=
  match row with
  | [] => True
  | k :: row' => k <= i /\ k <= j /\ row_bound i (S j) row'
  end.

Lemma next_row_bound (x : ascii) (b : list ascii) :
  forall prev i j,
    row_bound i j prev -> row_bound (S i) (S j) (next_row pop x b prev).
Proof.
  induction b as [|y b IH]; intros prev i j Hp; simpl; [exact I|].
  destruct prev as [|p prev]; simpl in *.
  - split; [|split; [|apply IH; exact I]];
      destruct (Ascii.eqb x y && negb (pop y)); lia.
  - destruct Hp as [Hi [Hj Hr]].
    split; [|split; [|apply IH; exact Hr]];
      destruct (Ascii.eqb x y && negb (pop y)); lia.
Qed.

Lemma next_row_length (x : ascii) (b : list ascii) :
  forall prev, length (next_row pop x b prev) = length b.
Proof.
  induction b as [|y b IH]; intros prev; simpl; [reflexivity|].
  rewrite IH. reflexivity.
Qed.

(** A candidate block lies inside both sequences. *)
Definition block_ok (la lb : nat) (best : nat * nat * nat) : Prop :=
  let '(i, j, k) := best in i + k <= la /\ j + k <= lb.

Lemma scan_row_ok (la lb i : nat) (row : list nat) :
  forall j best,
    S i <= la -> j + length row <= lb ->
    row_bound (S i) (S j) row -> block_ok la lb best ->
    block_ok la lb (scan_row i j row best).
Proof.
  induction row as [|k row IH]; intros j best Hi Hj Hr Hb; simpl;
    [exact Hb|].
  destruct best as [[bi bj] bk]. simpl in Hr, Hj.
  destruct Hr as [Hk1 [Hk2 Hr]].
  apply IH; [exact Hi|lia|exact Hr|].
  destruct (bk <? k); [|exact Hb].
  unfold block_ok. lia.
Qed.

Lemma longest_loop_ok (la : nat) (b : list ascii) (a : list ascii) :
  forall i j2len best,
    i + length a <= la -> row_bound i 1 j2len ->
    block_ok la (length b) best ->
    block_ok la (length b) (longest_loop pop a i b j2len best).
Proof.
  induction a as [|x a IH]; intros i j2len best Hi Hr Hb; simpl;
    [exact Hb|].
  simpl in Hi.
  assert (Hrow : row_bound (S i) 1 (next_row pop x b (0 :: j2len))).
  { apply next_row_bound. simpl. repeat split; [lia|lia|exact Hr]. }
  apply IH; [lia|exact Hrow|].
  apply scan_row_ok; [lia|rewrite next_row_length; lia|exact Hrow|exact Hb].
Qed.

Lemma extend_back_ok (la lb : nat) (a b : list ascii) :
  forall i j k,
    block_ok la lb (i, j, k) -> block_ok la lb (extend_back a b i j k).
Proof.
  induction i as [|i IH]; intros j k Hb; simpl; [exact Hb|].
  destruct j as [|j]; [exact Hb|].
  destruct (nth_error a i) as [x|]; [|exact Hb].
  destruct (nth_error b j) as [y|]; [|exact Hb].
  destruct (Ascii.eqb x y); [|exact Hb].
  apply IH. unfold block_ok in *. lia.
Qed.

Lemma common_prefix_le (a b : list ascii) :
  common_prefix a b <= length a /\ common_prefix a b <= length b.
Proof.
  revert b. induction a as [|x a IH]; intros b; simpl; [lia|].
  destruct b as [|y b]; simpl; [lia|].
  destruct (Ascii.eqb x y); [|lia].
  specialize (IH b). lia.
Qed.

(** The block found by [find_longest_match] lies inside both slices. *)
Lemma find_longest_match_ok (a b : list ascii) :
  block_ok (length a) (length b) (find_longest_match pop a b).
Proof.
  unfold find_longest_match.
  pose proof (longest_loop_ok (length a) b a 0 [] (0, 0, 0)) as H0.
  destruct (longest_loop pop a 0 b [] (0, 0, 0)) as [[i j] k].
  assert (H1 : block_ok (length a) (length b) (i, j, k)).
  { apply H0; simpl; lia. }
  apply (extend_back_ok _ _ a b) in H1.
  destruct (extend_back a b i j k) as [[i' j'] k'].
  unfold block_ok in *.
  pose proof (common_prefix_le (skipn (i' + k') a) (skipn (j' + k') b))
    as [Ha Hb].
  rewrite length_skipn in Ha, Hb. lia.
Qed.

(** The matched elements are at most as many as either sequence has. *)
Lemma matches_le (fuel : nat) :
  forall a b, matches pop fuel a b <= length a
              /\ matches pop fuel a b <= length b.
Proof.
  induction fuel as [|fuel IH]; intros a b; simpl; [lia|].
  pose proof (find_longest_match_ok a b) as Hok.
  destruct (find_longest_match pop a b) as [[i j] k].
  unfold block_ok in Hok.
  destruct (k =? 0); [lia|].
  pose proof (IH (firstn i a) (firstn j b)) as [L1 L2].
  pose proof (IH (skipn (i + k) a) (skipn (j + k) b)) as [R1 R2].
  rewrite length_firstn in L1, L2. rewrite length_skipn in R1, R2.
  destruct ((0 <? i) && (0 <? j));
    destruct ((i + k <? length a) && (j + k <? length b)); lia.
Qed.

End DifflibFacts.

(** The ratio lies between 0 and 1. *)
Lemma difflib_ratio_range (a b : string) :
  (0 <= Difflib.ratio a b <= 1)%Q.
Proof.
  unfold Difflib.ratio.
  set (la := list_ascii_of_string a). set (lb := list_ascii_of_string b).
  destruct (length la + length lb =? 0) eqn:Ht.
  - split; unfold Qle; simpl; lia.
  - apply Nat.eqb_neq in Ht.
    pose proof (matches_le (Difflib.popular lb) (S (length la)) la lb)
      as [H1 H2].
    assert (Hp : Z.pos (Pos.of_nat (length la + length lb))
                 = Z.of_nat (length la + length lb)).
    { rewrite <- positive_nat_Z, Nat2Pos.id by exact Ht. reflexivity. }
    split; unfold Qle; cbn [Qnum Qden]; rewrite ?Hp; lia.
Qed.

(** ** The weighted score *)

Section RoundingFacts.

Import ConfidenceCalculator.

Local Open Scope Q_scope.

Lemma Qgtb_true (a b : Q) : Qgtb a b = true <-> b < a.
Proof.
  unfold Qgtb. rewrite negb_true_iff. split.
  - intros H. apply Qnot_le_lt. intros Hle.
    apply Qle_bool_iff in Hle. congruence.
  - intros H. destruct (Qle_bool a b) eqn:E; [|reflexivity].
    apply Qle_bool_iff in E. exfalso. exact (Qlt_not_le _ _ H E).
Qed.

Lemma Qgtb_false (a b : Q) : Qgtb a b = false <-> a <= b.
Proof.
  unfold Qgtb. rewrite negb_false_iff. apply Qle_bool_iff.
Qed.

Lemma Qgtb_comp (a a' b b' : Q) : a == a' -> b == b' -> Qgtb a b = Qgtb a' b'.
Proof.
  intros Ha Hb. destruct (Qgtb a' b') eqn:E.
  - apply Qgtb_true. rewrite Ha, Hb. apply Qgtb_true, E.
  - apply Qgtb_false. rewrite Ha, Hb. apply Qgtb_false, E.
Qed.

(** Rounding does not depend on how the rational is written. *)
Lemma round_half_even_comp (x y : Q) :
  x == y -> round_half_even x = round_half_even y.
Proof.
  intros Hxy. unfold round_half_even.
  assert (Hf : Qfloor x = Qfloor y) by (apply Qfloor_comp, Hxy).
  rewrite Hf.
  assert (Hfr : x - inject_Z (Qfloor y) == y - inject_Z (Qfloor y))
    by (rewrite Hxy; reflexivity).
  rewrite (Qgtb_comp (1 # 2) (1 # 2) _ _ (Qeq_refl _) Hfr).
  rewrite (Qgtb_comp _ _ (1 # 2) (1 # 2) Hfr (Qeq_refl _)).
  reflexivity.
Qed.

Lemma round2_comp (x y : Q) : x == y -> round2 x = round2 y.
Proof.
  intros Hxy. unfold round2.
  rewrite (round_half_even_comp (x * 100) (y * 100)); [reflexivity|].
  rewrite Hxy. reflexivity.
Qed.

(** The rounded integer is within one half of the rational. *)
Lemma round_half_even_near (x : Q) :
  x - (1 # 2) <= inject_Z (round_half_even x) <= x + (1 # 2).
Proof.
  unfold round_half_even.
  pose proof (Qfloor_le x) as Hlo. pose proof (Qlt_floor x) as Hhi.
  set (n := Qfloor x) in *.
  assert (Hn1 : inject_Z (n + 1) == inject_Z n + 1)
    by (rewrite inject_Z_plus; reflexivity).
  rewrite Hn1 in Hhi.
  destruct (Qgtb (1 # 2) (x - inject_Z n)) eqn:E1.
  - apply Qgtb_true in E1. split; lra.
  - apply Qgtb_false in E1.
    destruct (Qgtb (x - inject_Z n) (1 # 2)) eqn:E2.
    + rewrite Hn1. split; lra.
    + apply Qgtb_false in E2.
      destruct (Z.even n); [split; lra|rewrite Hn1; split; lra].
Qed.

(** Rounding keeps a rational between two integers between them. *)
Lemma round_half_even_between (x : Q) (lo hi : Z) :
  inject_Z lo <= x <= inject_Z hi ->
  (lo <= round_half_even x <= hi)%Z.
Proof.
  intros [Hlo Hhi]. unfold round_half_even.
  pose proof (Qfloor_le x) as Hfl. pose proof (Qlt_floor x) as Hfh.
  set (n := Qfloor x) in *.
  assert (Hn_lo : (lo <= n)%Z).
  { apply Z.lt_succ_r. rewrite <- Z.add_1_r. rewrite Zlt_Qlt.
    eapply Qle_lt_trans; [exact Hlo|exact Hfh]. }
  assert (Hn_hi : (n <= hi)%Z).
  { rewrite Zle_Qle. eapply Qle_trans; [exact Hfl|exact Hhi]. }
  assert (Hup : inject_Z n < x -> (n + 1 <= hi)%Z).
  { intros Hlt. apply Z.lt_succ_r. rewrite <- Z.add_1_r. 
    apply Z.add_lt_mono_r. rewrite Zlt_Qlt.
    eapply Qlt_le_trans; [exact Hlt|exact Hhi]. }
  destruct (Qgtb (1 # 2) (x - inject_Z n)) eqn:E1; [lia|].
  apply Qgtb_false in E1.
  assert (Hlt : inject_Z n < x) by lra.
  specialize (Hup Hlt).
  destruct (Qgtb (x - inject_Z n) (1 # 2)); [lia|].
  destruct (Z.even n); lia.
Qed.

Lemma round2_range (x : Q) : 0 <= x <= 100 -> 0 <= round2 x <= 100.
Proof.
  intros [Hlo Hhi]. unfold round2.
  destruct (round_half_even_between (x * 100) 0 10000) as [H0 H1].
  { change (inject_Z 0) with 0. change (inject_Z 10000) with 10000.
    split; lra. }
  rewrite Zle_Qle in H0, H1.
  change (inject_Z 0) with 0 in H0. change (inject_Z 10000) with 10000 in H1.
  split.
  - apply Qle_shift_div_l; [reflexivity|]. lra.
  - apply Qle_shift_div_r; [reflexivity|]. lra.
Qed.

End RoundingFacts.

(** ** Binary64 arithmetic *)

Section FloatFacts.

Import ConfidenceCalculator.
Import FloatSpec.

Local Open Scope Q_scope.

Lemma scale_pos : 0 < inject_Z subnormal_scale.
Proof.
  change 0 with (inject_Z 0). rewrite <- Zlt_Qlt.
  unfold subnormal_scale. apply Z.pow_pos_nonneg; lia.
Qed.

Lemma pow2_pos (g : Z) : (0 <= g)%Z -> 0 < inject_Z (2 ^ g).
Proof.
  intros Hg. change 0 with (inject_Z 0). rewrite <- Zlt_Qlt.
  apply Z.pow_pos_nonneg; lia.
Qed.

Lemma Qle_bool_comp (x y : Q) : x == y -> Qle_bool 0 x = Qle_bool 0 y.
Proof.
  intros H. destruct (Qle_bool 0 y) eqn:E.
  - apply Qle_bool_iff. rewrite H. apply Qle_bool_iff, E.
  - destruct (Qle_bool 0 x) eqn:E'; [|reflexivity].
    apply Qle_bool_iff in E'. rewrite H in E'. apply Qle_bool_iff in E'.
    congruence.
Qed.

(** The float of a rational does not depend on how the rational is
    written. *)
Lemma binary64_comp (x y : Q) : x == y -> binary64 x = binary64 y.
Proof.
  intros H. unfold binary64.
  assert (Hs : Qabs x * inject_Z subnormal_scale
               == Qabs y * inject_Z subnormal_scale)
    by (rewrite H; reflexivity).
  rewrite (Qfloor_comp _ _ Hs).
  set (g := Z.max 0 (Z.log2 (Qfloor (Qabs y * inject_Z subnormal_scale)) - 52)).
  rewrite (round_half_even_comp
             (Qabs x * inject_Z subnormal_scale / inject_Z (2 ^ g))
             (Qabs y * inject_Z subnormal_scale / inject_Z (2 ^ g)))
    by (rewrite Hs; reflexivity).
  rewrite (Qle_bool_comp x y H). reflexivity.
Qed.

Lemma Qabs_nonneg_eq (x : Q) : 0 <= x -> Qabs x = x.
Proof.
  destruct x as [n d]. unfold Qle, Qabs. cbn [Qnum Qden]. intros H.
  rewrite Z.abs_eq by lia. reflexivity.
Qed.

Lemma binary64_nonneg_eq (x : Q) :
  0 <= x ->
  binary64 x
  = inject_Z (round_half_even
                (x * inject_Z subnormal_scale / inject_Z (2 ^ grid x))
              * 2 ^ grid x)
    / inject_Z subnormal_scale.
Proof.
  intros H. unfold binary64, grid. rewrite (Qabs_nonneg_eq x H).
  apply Qle_bool_iff in H. rewrite H. reflexivity.
Qed.

Lemma grid_nonneg (x : Q) : (0 <= grid x)%Z.
Proof. unfold grid. lia. Qed.

(** On its grid a non-negative rational has at most 53 bits, and exactly
    53 when the grid is not the one of the subnormal numbers. *)
Lemma grid_bounds (x : Q) :
  0 <= x ->
  x * inject_Z subnormal_scale < inject_Z (2 ^ 53 * 2 ^ grid x)
  /\ ((0 < grid x)%Z ->
      inject_Z (2 ^ 52 * 2 ^ grid x) <= x * inject_Z subnormal_scale).
Proof.
  intros Hx. unfold grid.
  set (X := x * inject_Z subnormal_scale).
  assert (HX : 0 <= X).
  { unfold X. apply Qmult_le_0_compat; [exact Hx|].
    apply Qlt_le_weak, scale_pos. }
  pose proof (Qfloor_le X) as Hlo. pose proof (Qlt_floor X) as Hhi.
  set (t := Qfloor X) in *.
  assert (Ht : (0 <= t)%Z).
  { change 0%Z with (Qfloor 0). apply Qfloor_resp_le, HX. }
  set (k := Z.log2 t).
  assert (Hz : (t + 1 <= 2 ^ 53 * 2 ^ Z.max 0 (k - 52))%Z
               /\ ((0 < Z.max 0 (k - 52))%Z ->
                   (2 ^ 52 * 2 ^ Z.max 0 (k - 52) <= t)%Z)).
  { destruct (Z.eq_dec t 0) as [E|E].
    - unfold k. rewrite E. cbn [Z.log2]. 
      change (Z.max 0 (0 - 52)) with 0%Z. split; [|lia].
      change (2 ^ 0)%Z with 1%Z. rewrite Z.mul_1_r.
      assert (0 < 2 ^ 53)%Z by (apply Z.pow_pos_nonneg; lia). lia.
    - assert (Htp : (0 < t)%Z) by lia.
      pose proof (Z.log2_spec t Htp) as [Hk1 Hk2]. fold k in Hk1, Hk2.
      assert (Hk0 : (0 <= k)%Z) by apply Z.log2_nonneg.
      destruct (Z.max_spec 0 (k - 52)) as [[Hlt ->]|[Hge ->]].
      + assert (E53 : (2 ^ 53 * 2 ^ (k - 52) = 2 ^ Z.succ k)%Z).
        { rewrite <- Z.pow_add_r by lia. f_equal. lia. }
        assert (E52 : (2 ^ 52 * 2 ^ (k - 52) = 2 ^ k)%Z).
        { rewrite <- Z.pow_add_r by lia. f_equal. lia. }
        rewrite E53, E52. split; [lia|intros _; exact Hk1].
      + change (2 ^ 0)%Z with 1%Z. rewrite !Z.mul_1_r. split; [|lia].
        assert (2 ^ Z.succ k <= 2 ^ 53)%Z
          by (apply Z.pow_le_mono_r; lia).
        lia. }
  destruct Hz as [Hz1 Hz2]. split.
  - eapply Qlt_le_trans; [exact Hhi|]. rewrite <- Zle_Qle. exact Hz1.
  - intros Hg. eapply Qle_trans; [|exact Hlo]. rewrite <- Zle_Qle.
    exact (Hz2 Hg).
Qed.

Lemma grid_mono (x y : Q) : 0 <= x -> x <= y -> (grid x <= grid y)%Z.
Proof.
  intros Hx Hxy. unfold grid.
  assert (Hf : (Qfloor (x * inject_Z subnormal_scale)
                <= Qfloor (y * inject_Z subnormal_scale))%Z).
  { apply Qfloor_resp_le. apply Qmult_le_compat_r; [exact Hxy|].
    apply Qlt_le_weak, scale_pos. }
  pose proof (Z.log2_le_mono _ _ Hf). lia.
Qed.

(** Rounding to the nearest integer is monotone. *)
Lemma round_half_even_mono (a b : Q) :
  a <= b -> (round_half_even a <= round_half_even b)%Z.
Proof.
  intros Hab. unfold round_half_even.
  pose proof (Qfloor_le a) as Ha1. pose proof (Qlt_floor a) as Ha2.
  pose proof (Qfloor_le b) as Hb1. pose proof (Qlt_floor b) as Hb2.
  pose proof (Qfloor_resp_le _ _ Hab) as Hn.
  set (n := Qfloor a) in *. set (n' := Qfloor b) in *.
  destruct (Z_lt_le_dec n n') as [Hlt|Hge].
  - destruct (Qgtb (1 # 2) (a - inject_Z n)),
      (Qgtb (a - inject_Z n) (1 # 2)), (Z.even n),
      (Qgtb (1 # 2) (b - inject_Z n')),
      (Qgtb (b - inject_Z n') (1 # 2)), (Z.even n'); lia.
  - assert (E : n' = n) by lia. clearbody n'. subst n'.
    destruct (Qgtb (1 # 2) (a - inject_Z n)) eqn:A1;
      [apply Qgtb_true in A1|apply Qgtb_false in A1];
    (destruct (Qgtb (a - inject_Z n) (1 # 2)) eqn:A2;
      [apply Qgtb_true in A2|apply Qgtb_false in A2]);
    (destruct (Qgtb (1 # 2) (b - inject_Z n)) eqn:B1;
      [apply Qgtb_true in B1|apply Qgtb_false in B1]);
    (destruct (Qgtb (b - inject_Z n) (1 # 2)) eqn:B2;
      [apply Qgtb_true in B2|apply Qgtb_false in B2]);
    destruct (Z.even n); first [lia | exfalso; lra].
Qed.


(** Rounding to binary64 is monotone on the non-negative rationals. *)
Lemma binary64_mono (x y : Q) :
  0 <= x -> x <= y -> binary64 x <= binary64 y.
Proof.
  intros Hx Hxy.
  assert (Hy : 0 <= y) by (eapply Qle_trans; eassumption).
  rewrite (binary64_nonneg_eq x Hx), (binary64_nonneg_eq y Hy).
  unfold Qdiv at 1 3. apply Qmult_le_compat_r;
    [|apply Qinv_le_0_compat, Qlt_le_weak, scale_pos].
  rewrite <- Zle_Qle.
  pose proof (grid_mono x y Hx Hxy) as Hg.
  pose proof (grid_nonneg x) as Hgx.
  destruct (grid_bounds x Hx) as [Hx53 _].
  destruct (grid_bounds y Hy) as [Hy53 Hy52].
  set (gx := grid x) in *. set (gy := grid y) in *.
  set (X := x * inject_Z subnormal_scale) in *.
  set (Y := y * inject_Z subnormal_scale) in *.
  assert (HXY : X <= Y).
  { unfold X, Y. apply Qmult_le_compat_r; [exact Hxy|].
    apply Qlt_le_weak, scale_pos. }
  assert (HX : 0 <= X).
  { unfold X. apply Qmult_le_0_compat; [exact Hx|].
    apply Qlt_le_weak, scale_pos. }
  destruct (Z.eq_dec gx gy) as [E|E].
  - rewrite <- E. apply Z.mul_le_mono_nonneg_r; [apply Z.pow_nonneg; lia|].
    apply round_half_even_mono. unfold Qdiv.
    apply Qmult_le_compat_r; [exact HXY|].
    apply Qinv_le_0_compat, Qlt_le_weak, pow2_pos, Hgx.
  - assert (Hlt : (gx < gy)%Z) by lia.
    assert (Hmx : (0 <= round_half_even (X / inject_Z (2 ^ gx)) <= 2 ^ 53)%Z).
    { apply round_half_even_between. split.
      - apply Qle_shift_div_l; [apply pow2_pos, Hgx|].
        change (inject_Z 0) with 0. lra.
      - apply Qle_shift_div_r; [apply pow2_pos, Hgx|].
        rewrite <- inject_Z_mult. apply Qlt_le_weak, Hx53. }
    assert (Hmy : (2 ^ 52 <= round_half_even (Y / inject_Z (2 ^ gy))
                   <= 2 ^ 53)%Z).
    { apply round_half_even_between. split.
      - apply Qle_shift_div_l; [apply pow2_pos; lia|].
        rewrite <- inject_Z_mult. apply Hy52. lia.
      - apply Qle_shift_div_r; [apply pow2_pos; lia|].
        rewrite <- inject_Z_mult. apply Qlt_le_weak, Hy53. }
    set (mx := round_half_even (X / inject_Z (2 ^ gx))) in *.
    set (my := round_half_even (Y / inject_Z (2 ^ gy))) in *.
    assert (HA : (0 < 2 ^ gx)%Z) by (apply Z.pow_pos_nonneg; lia).
    assert (HB : (2 * 2 ^ gx <= 2 ^ gy)%Z).
    { rewrite <- Z.pow_succ_r by exact Hgx. apply Z.pow_le_mono_r; lia. }
    assert (H53 : (2 ^ 53 = 2 * 2 ^ 52)%Z) by reflexivity.
    assert (H52 : (0 < 2 ^ 52)%Z) by reflexivity.
    set (A := (2 ^ gx)%Z) in *. set (B := (2 ^ gy)%Z) in *.
    set (p := (2 ^ 52)%Z) in *. rewrite H53 in Hmx. clearbody A B p mx my.
    apply Z.le_trans with (2 * p * A)%Z; [nia|].
    apply Z.le_trans with (p * B)%Z; nia.
Qed.

(** The float of a non-negative rational is within half a unit in the last
    place of it, or within half the distance between the subnormals. *)
Lemma binary64_error (x : Q) :
  0 <= x ->
  x - (x * unit_roundoff + tiny) <= binary64 x
  /\ binary64 x <= x + (x * unit_roundoff + tiny).
Proof.
  intros Hx. rewrite (binary64_nonneg_eq x Hx).
  pose proof (grid_nonneg x) as Hg.
  destruct (grid_bounds x Hx) as [_ H52].
  pose proof scale_pos as HS. pose proof (pow2_pos _ Hg) as HP.
  rewrite inject_Z_mult. rewrite inject_Z_mult in H52.
  set (S := inject_Z subnormal_scale) in *.
  set (P := inject_Z (2 ^ grid x)) in *.
  pose proof (round_half_even_near (x * S / P)) as [Hlo Hhi].
  set (m := inject_Z (round_half_even (x * S / P))) in *.
  assert (HtS : tiny * S == 1 # 2).
  { unfold tiny. fold S. field. intros E. rewrite E in HS.
    exact (Qlt_irrefl _ HS). }
  assert (Hlo' : x * S - P * (1 # 2) <= m * P).
  { setoid_replace (x * S - P * (1 # 2)) with ((x * S / P - (1 # 2)) * P)
      by (field; intros E; rewrite E in HP; exact (Qlt_irrefl _ HP)).
    apply Qmult_le_compat_r; [exact Hlo|apply Qlt_le_weak, HP]. }
  assert (Hhi' : m * P <= x * S + P * (1 # 2)).
  { setoid_replace (x * S + P * (1 # 2)) with ((x * S / P + (1 # 2)) * P)
      by (field; intros E; rewrite E in HP; exact (Qlt_irrefl _ HP)).
    apply Qmult_le_compat_r; [exact Hhi|apply Qlt_le_weak, HP]. }
  assert (HXnn : 0 <= x * S)
    by (apply Qmult_le_0_compat; [exact Hx|apply Qlt_le_weak, HS]).
  assert (HPb : P * (1 # 2) <= x * S * unit_roundoff + (1 # 2)).
  { destruct (Z.eq_dec (grid x) 0) as [E|E].
    - unfold P. rewrite E. change (inject_Z (2 ^ 0)) with 1.
      unfold unit_roundoff. lra.
    - assert (Hpos : (0 < grid x)%Z) by lia. specialize (H52 Hpos).
      change (inject_Z (2 ^ 52)) with (4503599627370496 # 1) in H52.
      unfold unit_roundoff. lra. }
  split.
  - apply Qle_shift_div_l; [exact HS|].
    setoid_replace ((x - (x * unit_roundoff + tiny)) * S)
      with (x * S - (x * S * unit_roundoff + tiny * S)) by ring.
    rewrite HtS. lra.
  - apply Qle_shift_div_r; [exact HS|].
    setoid_replace ((x + (x * unit_roundoff + tiny)) * S)
      with (x * S + (x * S * unit_roundoff + tiny * S)) by ring.
    rewrite HtS. lra.
Qed.

Lemma tiny_pos : 0 < tiny.
Proof.
  unfold tiny. apply Qlt_shift_div_l.
  - pose proof scale_pos. lra.
  - reflexivity.
Qed.

(** One operation whose exact result is between 0 and [bound] is off by
    at most [bound * roundoff], and stays between 0 and [bound] when
    [bound] is a float. *)
Lemma binary64_close (x bound : Q) :
  0 <= x <= bound -> 1 <= bound -> binary64 bound == bound ->
  (0 <= binary64 x <= bound)
  /\ x - bound * roundoff <= binary64 x <= x + bound * roundoff.
Proof.
  intros [H0 Hb] H1 Hfix.
  destruct (binary64_error x H0) as [Hlo Hhi].
  pose proof tiny_pos as Ht.
  assert (Hu : 0 < unit_roundoff) by reflexivity.
  assert (Hxu : x * unit_roundoff <= bound * unit_roundoff)
    by (apply Qmult_le_compat_r; [exact Hb|apply Qlt_le_weak, Hu]).
  assert (Hbt : tiny <= bound * tiny).
  { setoid_replace tiny with (1 * tiny) at 1 by ring.
    apply Qmult_le_compat_r; [exact H1|apply Qlt_le_weak, Ht]. }
  assert (Hr : bound * roundoff == bound * unit_roundoff + bound * tiny)
    by (unfold roundoff; ring).
  split; [split|split].
  - assert (E0 : binary64 0 == 0) by (vm_compute; reflexivity).
    rewrite <- E0. apply binary64_mono; [apply Qle_refl|exact H0].
  - rewrite <- Hfix. apply binary64_mono; assumption.
  - rewrite Hr. lra.
  - rewrite Hr. lra.
Qed.

(** An integer within less than one half of a rational is its rounding. *)
Lemma round_half_even_unique (y : Q) (k : Z) :
  inject_Z k - (1 # 2) < y < inject_Z k + (1 # 2) -> round_half_even y = k.
Proof.
  intros [Hlo Hhi]. pose proof (round_half_even_near y) as [Nlo Nhi].
  set (r := round_half_even y) in *.
  assert (H1 : (r < k + 1)%Z).
  { rewrite Zlt_Qlt, inject_Z_plus. change (inject_Z 1) with 1. lra. }
  assert (H2 : (k < r + 1)%Z).
  { rewrite Zlt_Qlt, inject_Z_plus. change (inject_Z 1) with 1. lra. }
  lia.
Qed.

Lemma roundoff_slack : 610 * roundoff <= float_slack.
Proof. unfold Qle. vm_compute. discriminate. Qed.

(** The arithmetic of [calculate_confidence] on three scores of [0,1]:
    every intermediate value stays in its range, and the result is within
    610 round-offs of the exact percentage. *)
Lemma weighted_float_close (n c e : Q) :
  0 <= n <= 1 -> 0 <= c <= 1 -> 0 <= e <= 1 ->
  let score :=
    float_add
      (float_add (float_add 0 (float_mul (binary64 n) 40))
                 (float_mul (binary64 c) 30))
      (float_mul (binary64 e) 30) in
  let percentage := float_mul (float_div score (0 + 40 + 30 + 30)) 100 in
  0 <= percentage <= 100
  /\ 40 * n + 30 * c + 30 * e - 610 * roundoff <= percentage
  /\ percentage <= 40 * n + 30 * c + 30 * e + 610 * roundoff.
Proof.
  intros Hn Hc He score percentage.
  assert (F1 : binary64 1 == 1) by (vm_compute; reflexivity).
  assert (F30 : binary64 30 == 30) by (vm_compute; reflexivity).
  assert (F40 : binary64 40 == 40) by (vm_compute; reflexivity).
  assert (F70 : binary64 70 == 70) by (vm_compute; reflexivity).
  assert (F100 : binary64 100 == 100) by (vm_compute; reflexivity).
  assert (L1 : 1 <= 1) by discriminate.
  assert (L30 : 1 <= 30) by discriminate.
  assert (L40 : 1 <= 40) by discriminate.
  assert (L70 : 1 <= 70) by discriminate.
  assert (L100 : 1 <= 100) by discriminate.
  unfold percentage, score, float_add, float_mul, float_div.
  destruct (binary64_close n 1 Hn L1 F1) as [Rn En].
  set (n' := binary64 n) in *.
  destruct (binary64_close (n' * 40) 40 ltac:(lra) L40 F40) as [Ra Ea].
  set (a := binary64 (n' * 40)) in *.
  destruct (binary64_close (0 + a) 40 ltac:(lra) L40 F40) as [Rs1 Es1].
  set (s1 := binary64 (0 + a)) in *.
  destruct (binary64_close c 1 Hc L1 F1) as [Rc Ec].
  set (c' := binary64 c) in *.
  destruct (binary64_close (c' * 30) 30 ltac:(lra) L30 F30) as [Rb Eb].
  set (b := binary64 (c' * 30)) in *.
  destruct (binary64_close (s1 + b) 70 ltac:(lra) L70 F70) as [Rs2 Es2].
  set (s2 := binary64 (s1 + b)) in *.
  destruct (binary64_close e 1 He L1 F1) as [Re Ee].
  set (e' := binary64 e) in *.
  destruct (binary64_close (e' * 30) 30 ltac:(lra) L30 F30) as [Rd Ed].
  set (d := binary64 (e' * 30)) in *.
  destruct (binary64_close (s2 + d) 100 ltac:(lra) L100 F100) as [Rs3 Es3].
  set (s3 := binary64 (s2 + d)) in *.
  rewrite (binary64_comp (s3 / (0 + 40 + 30 + 30)) (s3 * (1 # 100)))
    by (field; discriminate).
  destruct (binary64_close (s3 * (1 # 100)) 1 ltac:(lra) L1 F1) as [Rq Eq].
  set (q := binary64 (s3 * (1 # 100))) in *.
  destruct (binary64_close (q * 100) 100 ltac:(lra) L100 F100) as [Rp Ep].
  set (rho := roundoff) in *. clearbody rho n' a s1 c' b s2 e' d s3 q.
  split; [exact Rp|]. split; lra.
Qed.

End FloatFacts.

Section WeightedScore.

Import ConfidenceCalculator.
Import FloatSpec.

Variable unicode_to_ascii : string -> string.
Variable ratio : string -> string -> Q.

Local Open Scope Q_scope.

Hypothesis ratio_range : forall a b : string, 0 <= ratio a b <= 1.

Let unit_interval (x : Q) : Prop := 0 <= x <= 1.

Lemma compare_names_range (input_name profile_name : string) :
  0 <= _compare_names unicode_to_ascii ratio input_name profile_name <= 1.
Proof.
  unfold _compare_names.
  destruct (negb (Py.truthy input_name) || negb (Py.truthy profile_name));
    [split; discriminate|].
  destruct (String.eqb _ _); [split; discriminate|].
  destruct (forallb _ _); [split; discriminate|].
  destruct (_ && _); [split; discriminate|].
  destruct (Qgtb _ _); [apply ratio_range|].
  destruct (_check_initials _ _); [split; discriminate|apply ratio_range].
Qed.

Lemma py_max_range (a b : Q) :
  0 <= a <= 1 -> 0 <= b <= 1 -> 0 <= py_max a b <= 1.
Proof. intros Ha Hb. unfold py_max. destruct (Qgtb b a); assumption. Qed.

Lemma scan_experiences_range (input_company : string)
    (experiences : list Experience) :
  forall m, 0 <= m <= 1 ->
    0 <= scan_experiences unicode_to_ascii ratio input_company experiences m
    <= 1.
Proof.
  induction experiences as [|e experiences IH]; intros m Hm; simpl;
    [exact Hm|].
  destruct (String.eqb _ _); [split; discriminate|].
  apply IH.
  destruct (_ || _).
  - apply py_max_range; [apply py_max_range; [exact Hm|apply ratio_range]|].
    split; discriminate.
  - apply py_max_range; [exact Hm|apply ratio_range].
Qed.

Lemma compare_company_range (input_company : string)
    (experiences : list Experience) :
  0 <= _compare_company unicode_to_ascii ratio input_company experiences <= 1.
Proof.
  unfold _compare_company.
  destruct (_ || _); [split; discriminate|].
  assert (Hall : 0 <= scan_experiences unicode_to_ascii ratio
                        (_normalize_text unicode_to_ascii input_company)
                        experiences 0 <= 1).
  { apply scan_experiences_range. split; discriminate. }
  destruct (_get_current_experience experiences) as [e|]; [|exact Hall].
  destruct (exp_truthy e); [|exact Hall].
  destruct (String.eqb _ _); [split; discriminate|].
  destruct (Qgtb _ _); [apply ratio_range|].
  destruct (_ || _); [split; discriminate|exact Hall].
Qed.

Lemma compare_email_range (input_email : string) (profile_data : ProfileData) :
  0 <= _compare_email unicode_to_ascii ratio input_email profile_data <= 1.
Proof.
  pose proof (compare_email_values unicode_to_ascii ratio input_email
                profile_data) as H.
  simpl in H.
  destruct H as [<-|[<-|[<-|[<-|[<-|[<-|[]]]]]]]; split; discriminate.
Qed.

(** C1 (amended). For every identity query and every extracted profile the
    three sub-scores lie in [0,1], and [calculate_confidence] returns the
    weighted combination (40 name + 30 company + 30 email) / 100 taken as a
    percentage, that is multiplied by 100, computed in binary64 and then
    rounded to two decimals.  The percentage before the last rounding lies
    in [0,100], within one part in ten to the twelfth of the exact value
    40 name + 30 company + 30 email; the result is a whole number of
    hundredths within half a hundredth (and that slack) of the exact value;
    it is the half-even rounding of the exact value whenever that value is
    further than the slack from the middle between two hundredths; and it
    lies in [0,100]. *)
Theorem calculate_confidence_weighted (input_data : InputData)
    (profile_data : ProfileData) :
  let name_score :=
    _compare_names unicode_to_ascii ratio
      (get (name input_data) EmptyString)
      (get (full_name profile_data) EmptyString) in
  let company_score :=
    _compare_company unicode_to_ascii ratio
      (get (input_company input_data) EmptyString)
      (get (experience profile_data) []) in
  let email_score :=
    _compare_email unicode_to_ascii ratio
      (get (email input_data) EmptyString) profile_data in
  let weighted := (40 * name_score + 30 * company_score + 30 * email_score) / 100 in
  let percentage :=
    final_score unicode_to_ascii ratio input_data profile_data in
  let result :=
    calculate_confidence unicode_to_ascii ratio input_data profile_data in
  (0 <= name_score <= 1 /\ 0 <= company_score <= 1 /\ 0 <= email_score <= 1)
  /\ result = round2 percentage
  /\ 0 <= percentage <= 100
  /\ weighted * 100 - float_slack <= percentage <= weighted * 100 + float_slack
  /\ (exists hundredths : Z,
        result = inject_Z hundredths / 100
        /\ weighted * 100 - (1 # 200) - float_slack <= result
           <= weighted * 100 + (1 # 200) + float_slack)
  /\ (forall k : Z,
        inject_Z k - (1 # 2) + 100 * float_slack < weighted * 100 * 100
        /\ weighted * 100 * 100 < inject_Z k + (1 # 2) - 100 * float_slack ->
        result = inject_Z k / 100 /\ result = round2 (weighted * 100))
  /\ 0 <= result <= 100.
Proof.
  intros name_score company_score email_score weighted percentage result.
  pose proof (compare_names_range (get (name input_data) EmptyString)
                (get (full_name profile_data) EmptyString)) as Hn.
  pose proof (compare_company_range
                (get (input_company input_data) EmptyString)
                (get (experience profile_data) [])) as Hc.
  pose proof (compare_email_range (get (email input_data) EmptyString)
                profile_data) as He.
  fold name_score in Hn. fold company_score in Hc. fold email_score in He.
  pose proof (weighted_float_close name_score company_score email_score
                Hn Hc He) as Hfl.
  assert (Hp : percentage
               = float_mul
                   (float_div
                      (float_add
                         (float_add
                            (float_add 0 (float_mul (binary64 name_score) 40))
                            (float_mul (binary64 company_score) 30))
                         (float_mul (binary64 email_score) 30))
                      (0 + 40 + 30 + 30)) 100).
  { unfold percentage, final_score.
    fold name_score. fold company_score. fold email_score.
    change (Qgtb (0 + 40 + 30 + 30) 0) with true. reflexivity. }
  cbv zeta in Hfl. rewrite <- Hp in Hfl. clear Hp.
  destruct Hfl as [Hrange [Hlo Hhi]].
  pose proof roundoff_slack as Hslack.
  assert (Hw : weighted * 100
               == 40 * name_score + 30 * company_score + 30 * email_score)
    by (unfold weighted; field).
  assert (Hclose : weighted * 100 - float_slack <= percentage
                   <= weighted * 100 + float_slack)
    by (rewrite Hw; split; lra).
  assert (Hres : result = round2 percentage) by reflexivity.
  pose proof (round_half_even_near (percentage * 100)) as [Nlo Nhi].
  split; [tauto|]. split; [exact Hres|]. split; [exact Hrange|].
  split; [exact Hclose|]. split; [|split].
  - exists (round_half_even (percentage * 100)).
    split; [reflexivity|]. rewrite Hres. unfold round2. split.
    + apply Qle_shift_div_l; [reflexivity|]. lra.
    + apply Qle_shift_div_r; [reflexivity|]. lra.
  - intros k [Hk1 Hk2].
    assert (E1 : round_half_even (percentage * 100) = k)
      by (apply round_half_even_unique; split; lra).
    assert (E2 : round_half_even (weighted * 100 * 100) = k).
    { apply round_half_even_unique.
      assert (0 < float_slack) by reflexivity. split; lra. }
    rewrite Hres. unfold round2. rewrite E1, E2. split; reflexivity.
  - rewrite Hres. apply round2_range, Hrange.
Qed.

End WeightedScore.

(** ** The calculator on concrete inputs *)

Section CalculatorExamples.

Import ConfidenceCalculator.

Let normalize := _normalize_text Unicodedata.nfkd_ascii.
Let compare_names := _compare_names Unicodedata.nfkd_ascii Difflib.ratio.
Let compare_email := _compare_email Unicodedata.nfkd_ascii Difflib.ratio.
Let confidence := calculate_confidence Unicodedata.nfkd_ascii Difflib.ratio.

(** The query and the profile of tests/test_confidence_calculator.py. *)
Definition john_query : InputData :=
  {| name := Some "John Smith";
     email := Some "john.smith@example.com";
     input_company := Some "Example Corp" |}.

Definition john_profile : ProfileData :=
  {| full_name := Some "John Smith";
     headline := None;
     experience :=
       Some [ {| title := Some "Software Engineer";
                 company := Some "Example Corp";
                 duration := Some "2020 - Present";
                 location := None |} ];
     education := None;
     skills := None |}.

(** The name José SMITH, with an accent, capitals and a trailing space. *)
Definition jose_raw : string :=
  ("Jos" ++ String (ascii_of_nat 233) " SMITH ")%string.

Local Open Scope Q_scope.

(** On the test's exact match the sub-scores are 1, 1 and 0.9 and the
    result is 97, not 0.97. *)
Lemma calculate_confidence_counterexample :
  ~ (confidence john_query john_profile
     == round2 ((40 * compare_names "John Smith" "John Smith"
                 + 30 * _compare_company Unicodedata.nfkd_ascii Difflib.ratio
                          "Example Corp"
                          (get (experience john_profile) [])
                 + 30 * compare_email "john.smith@example.com" john_profile)
                / 100)).
Proof.
  assert (E1 : confidence john_query john_profile == 97)
    by (vm_compute; reflexivity).
  assert (E2 : round2 ((40 * compare_names "John Smith" "John Smith"
                 + 30 * _compare_company Unicodedata.nfkd_ascii Difflib.ratio
                          "Example Corp"
                          (get (experience john_profile) [])
                 + 30 * compare_email "john.smith@example.com" john_profile)
                / 100) == 97 # 100)
    by (vm_compute; reflexivity).
  intros H. rewrite E1, E2 in H. discriminate H.
Qed.

Lemma calculate_confidence_weighted_witness :
  (forall a b : string, 0 <= Difflib.ratio a b <= 1)
  /\ 0 <= confidence john_query john_profile <= 100.
Proof.
  split; [exact difflib_ratio_range|].
  exact (proj2 (proj2 (proj2 (proj2 (proj2 (proj2
           (calculate_confidence_weighted
              Unicodedata.nfkd_ascii Difflib.ratio difflib_ratio_range
              john_query john_profile))))))).
Defined.

(** The same query against a profile whose company shares 7 of 16
    characters with the query's, and an email that matches nothing. *)
Definition tie_query : InputData :=
  {| name := Some "John Smith";
     email := Some "someone@other.org";
     input_company := Some "abcdefghijklmnop" |}.

Definition tie_profile : ProfileData :=
  {| full_name := Some "John Smith";
     headline := None;
     experience :=
       Some [ {| title := Some "Software Engineer";
                 company := Some "abcdefgqrstuvwxy";
                 duration := None;
                 location := None |} ];
     education := None;
     skills := None |}.

(** The sub-scores 1, 0.4375 and 0.2 have the exact percentage 59.125,
    in the middle between two hundredths.  In binary64 the percentage is
    59.125 and one unit in the last place (0.2 is not a binary fraction),
    and the result is 59.13, where rounding the exact value to the even
    hundredth gives 59.12. *)
Example calculate_confidence_tie :
  compare_names "John Smith" "John Smith" == 1
  /\ _compare_company Unicodedata.nfkd_ascii Difflib.ratio
       "abcdefghijklmnop" (get (experience tie_profile) []) == 4375 # 10000
  /\ compare_email "someone@other.org" tie_profile == 2 # 10
  /\ final_score Unicodedata.nfkd_ascii Difflib.ratio tie_query tie_profile
     == (59125 # 1000) + (1 # 140737488355328)
  /\ confidence tie_query tie_profile == 5913 # 100
  /\ round2 (40 * 1 + 30 * (4375 # 10000) + 30 * (2 # 10)) == 5912 # 100.
Proof.
  split; [vm_compute; reflexivity|]. split; [vm_compute; reflexivity|].
  split; [vm_compute; reflexivity|]. split; [vm_compute; reflexivity|].
  split; vm_compute; reflexivity.
Qed.

(** Binary64 values of the model against the ones of the machine: 0.9,
    0.1 + 0.2, a tie between two floats, and the smallest subnormal. *)
Example binary64_values :
  binary64 (9 # 10) == 8106479329266893 # 9007199254740992
  /\ float_add (binary64 (1 # 10)) (binary64 (2 # 10))
     == 1351079888211149 # 4503599627370496
  /\ binary64 9007199254740993 == 9007199254740992
  /\ binary64 9007199254740995 == 9007199254740996
  /\ binary64 (1 # 3) == 6004799503160661 # 18014398509481984
  /\ binary64 (- (1 # 3)) == - (6004799503160661 # 18014398509481984)
  /\ binary64 (3 / (4 * inject_Z subnormal_scale))
     == 1 / inject_Z subnormal_scale
  /\ binary64 (1 / (2 * inject_Z subnormal_scale)) == 0.
Proof.
  split; [vm_compute; reflexivity|]. split; [vm_compute; reflexivity|].
  split; [vm_compute; reflexivity|]. split; [vm_compute; reflexivity|].
  split; [vm_compute; reflexivity|]. split; [vm_compute; reflexivity|].
  split; vm_compute; reflexivity.
Qed.

(** The local part johnsmith is the third pattern of John Smith, and the
    score is 0.8: the local part is contained in the name without its
    space, a test that comes before the patterns. *)
Example compare_email_contained_first :
  In "johnsmith"%string
     (name_patterns (Py.split (Py.lower (normalize "John Smith"))))
  /\ compare_email "johnsmith@example.com" john_profile = 8 # 10.
Proof. split; vm_compute; [tauto|reflexivity]. Qed.

(** The local part john.smith is the first pattern, and the score is 0.9. *)
Example compare_email_first_pattern :
  compare_email "john.smith@example.com" john_profile = 9 # 10.
Proof.
  refine (compare_email_pattern_reached Unicodedata.nfkd_ascii Difflib.ratio
            "john.smith@example.com" john_profile "john.smith" []
            ["john_smith"; "johnsmith"; "jsmith"]%string
            eq_refl eq_refl _ eq_refl _).
  - vm_compute. lia.
  - intros p [].
Qed.

(** C3. The local part john_smith is exactly the second pattern,
    first_last, built from the name John Smith, and it is not contained in
    the name without its space; yet the e-mail score is 0.7 and not 0.9.
    The loop tests equality and similarity pattern by pattern, and the
    first pattern john.smith, which differs from the local part in one
    character (similarity 0.9, above 0.8), ends it before the equal pattern
    is compared: the exact match does not dominate the similarity tier. *)
Theorem compare_email_exact_pattern_shadowed :
  username_match "john_smith@example.com" = Some "john_smith"%string
  /\ name_patterns (Py.split (Py.lower (normalize "John Smith")))
     = ["john.smith"; "john_smith"; "johnsmith"; "jsmith"]%string
  /\ Py.contains "john_smith"
       (Py.lower (Py.remove_spaces (normalize "John Smith"))) = false
  /\ Difflib.ratio "john_smith" "john.smith" == 9 # 10
  /\ compare_email "john_smith@example.com" john_profile = 7 # 10
  /\ ~ compare_email "john_smith@example.com" john_profile == 9 # 10.
Proof.
  split; [reflexivity|]. split; [reflexivity|]. split; [reflexivity|].
  split; [vm_compute; reflexivity|]. split; [vm_compute; reflexivity|].
  intros H. vm_compute in H. discriminate H.
Qed.

(** A non-empty email without an [@] scores 0. *)
Lemma compare_email_floor_counterexample :
  ~ (forall (input_email : string) (profile_data : ProfileData),
        input_email <> EmptyString ->
        2 # 10 <= compare_email input_email profile_data).
Proof.
  intros H. specialize (H "foo"%string john_profile).
  assert (Hne : "foo"%string <> EmptyString) by discriminate.
  specialize (H Hne). vm_compute in H. apply H. reflexivity.
Qed.

Lemma compare_email_floor_witness :
  username_match "someone@other.org" <> None
  /\ 2 # 10 <= compare_email "someone@other.org" john_profile.
Proof.
  assert (Hm : username_match "someone@other.org" <> None) by discriminate.
  split; [exact Hm|].
  exact (proj2 (proj1 (compare_email_floor Unicodedata.nfkd_ascii
                         Difflib.ratio "someone@other.org" john_profile) Hm)).
Defined.

(** Two empty names are identical after normalization and score 0. *)
Lemma compare_names_identical_counterexample :
  ~ (forall input_name profile_name : string,
        normalize input_name = normalize profile_name ->
        compare_names input_name profile_name == 1).
Proof.
  intros H. specialize (H EmptyString EmptyString eq_refl).
  vm_compute in H. discriminate H.
Qed.

Lemma compare_names_identical_witness :
  jose_raw <> EmptyString
  /\ "jose smith"%string <> EmptyString
  /\ normalize jose_raw = normalize "jose smith"
  /\ compare_names jose_raw "jose smith" = 1
  /\ compare_names EmptyString "jose smith" = 0
  /\ compare_names jose_raw EmptyString = 0.
Proof.
  assert (H1 : jose_raw <> EmptyString) by discriminate.
  assert (H2 : "jose smith"%string <> EmptyString) by discriminate.
  assert (H3 : normalize jose_raw = normalize "jose smith") by reflexivity.
  split; [exact H1|]. split; [exact H2|]. split; [exact H3|].
  split; [|split].
  - exact (proj1 (compare_names_identical Unicodedata.nfkd_ascii Difflib.ratio
                    jose_raw "jose smith") H1 H2 H3).
  - exact (proj2 (compare_names_identical Unicodedata.nfkd_ascii Difflib.ratio
                    EmptyString "jose smith") (or_introl eq_refl)).
  - exact (proj2 (compare_names_identical Unicodedata.nfkd_ascii Difflib.ratio
                    jose_raw EmptyString) (or_intror eq_refl)).
Defined.

End CalculatorExamples.

(** ** Flags of the working dict *)

Section BlockSignals.

Import BlockDetector.
Import BlockSpec.

Lemma flag_dict_set_same (k : string) (d : Blocks) :
  flag (Py.dict_set k true d) k = true.
Proof.
  unfold flag. induction d as [|[k' v'] d IH]; simpl.
  - rewrite String.eqb_refl. reflexivity.
  - destruct (String.eqb k k') eqn:E; simpl; rewrite E; [reflexivity|exact IH].
Qed.

Lemma flag_dict_set_mono (k k' : string) (d : Blocks) :
  flag d k' = true -> flag (Py.dict_set k true d) k' = true.
Proof.
  unfold flag. induction d as [|[k0 v0] d IH]; simpl; [discriminate|].
  destruct (String.eqb k k0) eqn:E; simpl.
  - destruct (String.eqb k' k0); [reflexivity|trivial].
  - destruct (String.eqb k' k0); [trivial|exact IH].
Qed.

Lemma mark_table_mono hit table :
  forall blocks k, flag blocks k = true ->
                   flag (mark_table hit table blocks) k = true.
Proof.
  induction table as [|[bt ps] table IH]; intros blocks k Hk; simpl;
    [exact Hk|].
  apply IH. destruct (existsb hit ps); [apply flag_dict_set_mono|]; exact Hk.
Qed.

Lemma mark_table_sets hit table kind pats :
  In (kind, pats) table -> existsb hit pats = true ->
  forall blocks, flag (mark_table hit table blocks) kind = true.
Proof.
  induction table as [|[bt ps] table IH]; intros Hin Hhit blocks; simpl;
    [destruct Hin|].
  destruct Hin as [Heq|Hin].
  - inversion Heq; subst. rewrite Hhit.
    apply mark_table_mono, flag_dict_set_same.
  - apply IH; assumption.
Qed.

End BlockSignals.

Section BlockSignalsMore.

Import BlockDetector.
Import BlockSpec.

Lemma check_redirects_mono (url : string) (blocks : Blocks) (k : string) :
  flag blocks k = true -> flag (_check_redirects url blocks) k = true.
Proof.
  intros Hk. unfold _check_redirects.
  destruct (Py.contains "linkedin.com/login" url
            && negb (flag blocks "login_required"));
    destruct (_ && _); repeat apply flag_dict_set_mono; exact Hk.
Qed.

Lemma flag_In (blocks : Blocks) (k : string) :
  flag blocks k = true -> In k (map fst (filter (fun kv => snd kv) blocks)).
Proof.
  unfold flag. induction blocks as [|[k' v'] blocks IH]; simpl;
    [discriminate|].
  destruct (String.eqb_spec k k') as [->|Hne].
  - intros ->. simpl. left. reflexivity.
  - intros H. destruct v'; simpl; [right|]; apply IH, H.
Qed.

(** On an association list without repeated keys, the keys of the true
    entries are the keys filtered by membership, in the same order. *)
Lemma flagged_is_filter (blocks : Blocks) :
  NoDup (Py.keys blocks) ->
  map fst (filter (fun kv => snd kv) blocks)
  = filter (fun k => Py.mem k (map fst (filter (fun kv => snd kv) blocks)))
           (Py.keys blocks).
Proof.
  induction blocks as [|[k v] blocks IH]; intros Hnd; simpl; [reflexivity|].
  inversion Hnd as [|? ? Hk Hnd']; subst.
  assert (Hnot : Py.mem k (map fst (filter (fun kv => snd kv) blocks))
                 = false).
  { destruct (Py.mem k _) eqn:E; [|reflexivity].
    apply mem_true_iff in E. apply flagged_in_keys in E. contradiction. }
  destruct v; simpl.
  - unfold Py.mem at 1. simpl. rewrite String.eqb_refl. simpl. f_equal.
    rewrite (IH Hnd') at 1. apply filter_ext_in.
    intros x Hx. unfold Py.mem. simpl.
    destruct (String.eqb_spec x k) as [->|Hne]; [contradiction|reflexivity].
  - rewrite Hnot. apply IH, Hnd'.
Qed.

End BlockSignalsMore.

Section DetectorSignals.

Import BlockDetector.
Import BlockSpec.

Variable re_search : string -> string -> bool.
Variable re_search_groups : string -> string -> option (string * string).
Variable int_of_str : string -> option Z.
Variable Soup Element : Type.
Variable BeautifulSoup : string -> option Soup.
Variable select : Soup -> string -> option (list Element).
Variable text : Element -> string.

Let detect :=
  detect_blocks re_search re_search_groups int_of_str Soup Element
    BeautifulSoup select text.

Let html_pass := _check_html_elements Soup Element BeautifulSoup select.

Lemma mark_selected_mono soup table :
  forall blocks k, flag blocks k = true ->
    flag (mark_selected Soup Element select soup table blocks) k = true.
Proof.
  induction table as [|[bt ss] table IH]; intros blocks k Hk; simpl;
    [exact Hk|].
  destruct (any_selected Soup Element select soup ss) as [[|]|];
    [apply IH, flag_dict_set_mono, Hk|apply IH, Hk|exact Hk].
Qed.

Lemma check_html_mono html blocks k :
  flag blocks k = true -> flag (html_pass html blocks) k = true.
Proof.
  intros Hk. unfold html_pass, _check_html_elements.
  destruct (BeautifulSoup html); [apply mark_selected_mono|]; exact Hk.
Qed.

(** The flags of the working dict after the four passes. *)
Let final_blocks (html url : string) : Blocks :=
  _check_redirects url
    (_check_url_patterns re_search url
       (html_pass html
          (_check_text_patterns re_search html
             (map (fun kv : string * list string => (fst kv, false))
                  PATTERNS)))).

Lemma block_types_final (html url : string) :
  block_types (detect html url)
  = map fst (filter (fun kv => snd kv) (final_blocks html url)).
Proof. reflexivity. Qed.

Lemma final_blocks_keys (html url : string) :
  Py.keys (final_blocks html url) = block_kinds.
Proof.
  unfold final_blocks.
  set (b0 := map (fun kv : string * list string => (fst kv, false)) PATTERNS).
  assert (K0 : Py.keys b0 = block_kinds) by reflexivity.
  set (b1 := _check_text_patterns re_search html b0).
  assert (K1 : Py.keys b1 = block_kinds).
  { unfold b1, _check_text_patterns. rewrite keys_mark_table; [exact K0|].
    rewrite K0. apply table_keys_in. vm_compute. reflexivity. }
  set (b2 := html_pass html b1).
  assert (K2 : Py.keys b2 = block_kinds).
  { unfold b2, html_pass, _check_html_elements.
    destruct (BeautifulSoup html); [|exact K1].
    rewrite keys_mark_selected; [exact K1|].
    rewrite K1. apply table_keys_in. vm_compute. reflexivity. }
  set (b3 := _check_url_patterns re_search url b2).
  assert (K3 : Py.keys b3 = block_kinds).
  { unfold b3, _check_url_patterns. rewrite keys_mark_table; [exact K2|].
    rewrite K2. apply table_keys_in. vm_compute. reflexivity. }
  rewrite keys_check_redirects; rewrite K3; simpl; tauto.
Qed.

(** X1. The list of detected kinds is the list of the seven kinds, in the
    order of [PATTERNS], restricted to the kinds it contains: no kind is
    listed twice and the order never depends on which signal fired
    first. *)
Theorem block_types_ordered (html url : string) :
  block_types (detect html url)
  = filter (fun k => Py.mem k (block_types (detect html url))) block_kinds
  /\ NoDup (block_types (detect html url)).
Proof.
  assert (Hnd : NoDup block_kinds).
  { unfold block_kinds.
    repeat (constructor; [simpl; intuition discriminate|]). constructor. }
  assert (E : block_types (detect html url)
              = filter (fun k => Py.mem k (block_types (detect html url)))
                       block_kinds).
  { rewrite block_types_final. rewrite <- (final_blocks_keys html url).
    apply flagged_is_filter. rewrite final_blocks_keys. exact Hnd. }
  split; [exact E|].
  rewrite E. apply NoDup_filter, Hnd.
Qed.

(** X2. A kind is reported as soon as one of its text patterns matches
    the lower-cased page, or one of its URL patterns matches the
    lower-cased URL: no later pass takes a detected kind back. *)
Theorem pattern_match_is_reported (html url kind pattern : string)
    (patterns : list string) :
  In pattern patterns ->
  (In (kind, patterns) PATTERNS
   /\ re_search pattern (Py.lower html) = true)
  \/ (In (kind, patterns) URL_INDICATORS
      /\ re_search pattern (Py.lower url) = true) ->
  In kind (block_types (detect html url))
  /\ is_blocked (detect html url) = true.
Proof.
  intros Hp Hsig.
  assert (Hin : In kind (block_types (detect html url))).
  { rewrite block_types_final. apply flag_In. unfold final_blocks.
    apply check_redirects_mono.
    destruct Hsig as [[Hk Hs]|[Hk Hs]].
    - unfold _check_url_patterns. apply mark_table_mono, check_html_mono.
      unfold _check_text_patterns.
      apply (mark_table_sets _ _ kind patterns Hk).
      apply existsb_exists. exists pattern. split; assumption.
    - unfold _check_url_patterns.
      apply (mark_table_sets _ _ kind patterns Hk).
      apply existsb_exists. exists pattern. split; assumption. }
  split; [exact Hin|].
  apply (flagged_iff (final_blocks html url)).
  rewrite <- block_types_final.
  intros E. rewrite E in Hin. exact Hin.
Qed.

(** X3. The redirect heuristic: a URL that contains linkedin.com/login
    reports login_required and a URL that contains linkedin.com/checkpoint
    reports security_check, whatever the pattern engine and the HTML
    parser answer. *)
Theorem redirect_is_reported (html url : string) :
  (Py.contains "linkedin.com/login" url = true ->
   In "login_required" (block_types (detect html url)))
  /\ (Py.contains "linkedin.com/checkpoint" url = true ->
      In "security_check" (block_types (detect html url))).
Proof.
  split; intros Hc; rewrite block_types_final; apply flag_In;
    unfold final_blocks, _check_redirects; rewrite Hc; simpl.
  - match goal with
    | |- context [negb (flag ?b "login_required")] =>
        destruct (flag b "login_required") eqn:Hf
    end; simpl.
    + destruct (_ && _); [apply flag_dict_set_mono|]; exact Hf.
    + destruct (_ && _);
        [apply flag_dict_set_mono|]; apply flag_dict_set_same.
  - match goal with
    | |- context [negb (flag ?b "security_check")] =>
        destruct (flag b "security_check") eqn:Hf
    end; simpl; [exact Hf|apply flag_dict_set_same].
Qed.

Lemma collect_messages_nonempty soup selectors :
  forall acc msgs,
    collect_messages Soup Element select text soup selectors acc = Some msgs ->
    Forall (fun m => m <> EmptyString) acc ->
    Forall (fun m => m <> EmptyString) msgs.
Proof.
  induction selectors as [|sel selectors IH]; intros acc msgs H Hacc;
    simpl in H.
  - inversion H; subst. exact Hacc.
  - destruct (select soup sel) as [elements|]; [|discriminate].
    apply IH in H; [exact H|].
    apply Forall_app. split; [exact Hacc|].
    apply Forall_forall. intros m Hm.
    apply in_map_iff in Hm as [e [<- He]].
    apply filter_In in He as [_ Ht].
    destruct (Py.strip (text e)); [discriminate|discriminate].
Qed.

Lemma scan_messages_keeps pattern messages :
  forall d d',
    scan_messages re_search_groups int_of_str pattern messages d = Some d' ->
    error_messages d' = error_messages d
    /\ (wait_time d' <> None -> wait_time d <> None \/ messages <> []).
Proof.
  induction messages as [|msg messages IH]; intros d d' H; simpl in H.
  - inversion H; subst. split; [reflexivity|tauto].
  - destruct (re_search_groups pattern msg) as [[g1 g2]|].
    + destruct (int_of_str g1) as [n|]; [|discriminate].
      inversion H; subst. simpl. split; [reflexivity|].
      intros _. right. discriminate.
    + apply IH in H as [He Hw]. split; [exact He|].
      intros Hd. right. discriminate.
Qed.

Lemma scan_patterns_keeps patterns messages :
  forall d,
    error_messages (scan_patterns re_search_groups int_of_str patterns
                      messages d) = error_messages d
    /\ (wait_time (scan_patterns re_search_groups int_of_str patterns
                     messages d) <> None ->
        wait_time d <> None \/ messages <> []).
Proof.
  induction patterns as [|pattern patterns IH]; intros d; simpl.
  - split; [reflexivity|tauto].
  - destruct (scan_messages re_search_groups int_of_str pattern messages d)
      as [d'|] eqn:Hs; [|split; [reflexivity|tauto]].
    apply scan_messages_keeps in Hs as [He Hw].
    destruct (IH d') as [He' Hw']. split; [congruence|].
    intros H. apply Hw' in H as [H|H]; [apply Hw, H|right; exact H].
Qed.

(** X4. The details of a detection: a parsed wait duration is only ever
    present together with the rate_limit kind and with error messages, and
    the list of error messages, when present, is not empty and holds no
    empty message. *)
Theorem block_details_shape (html url : string) :
  exists d : Details,
    details (detect html url) = Some d
    /\ (wait_time d <> None ->
        In "rate_limit" (block_types (detect html url))
        /\ error_messages d <> None)
    /\ (forall msgs, error_messages d = Some msgs ->
                     msgs <> []
                     /\ Forall (fun m => m <> EmptyString) msgs).
Proof.
  exists (_get_block_details re_search_groups int_of_str Soup Element
            BeautifulSoup select text html (final_blocks html url)).
  split; [reflexivity|].
  rewrite block_types_final.
  unfold _get_block_details.
  destruct (BeautifulSoup html) as [soup|];
    [|simpl; split; [tauto|discriminate]].
  destruct (collect_messages Soup Element select text soup error_selectors [])
    as [msgs|] eqn:Hc; [|simpl; split; [tauto|discriminate]].
  apply collect_messages_nonempty in Hc; [|constructor].
  destruct msgs as [|m msgs].
  - destruct (flag (final_blocks html url) "rate_limit") eqn:Hf.
    + destruct (scan_patterns_keeps wait_time_patterns []
                  {| error_messages := None; wait_time := None |})
        as [He Hw].
      split.
      * intros H. apply Hw in H as [H|H]; simpl in H; congruence.
      * intros msgs' H. rewrite He in H. discriminate.
    + simpl. split; [tauto|discriminate].
  - destruct (flag (final_blocks html url) "rate_limit") eqn:Hf.
    + destruct (scan_patterns_keeps wait_time_patterns (m :: msgs)
                  {| error_messages := Some (m :: msgs);
                     wait_time := None |}) as [He Hw].
      split.
      * intros _. split; [apply flag_In, Hf|rewrite He; discriminate].
      * intros msgs' H. rewrite He in H. inversion H; subst.
        split; [discriminate|exact Hc].
    + simpl. split; [tauto|].
      intros msgs' H. inversion H; subst. split; [discriminate|exact Hc].
Qed.

(** X5. Detection followed by recommendation: the answer is continue
    exactly when no kind was detected; otherwise its reason is one of the
    detected kinds, so that the generic unknown_block answer is never
    given for a result of [detect_blocks]. *)
Theorem recommended_action_of_detection (html url : string) :
  (action (get_recommended_action (detect html url)) = "continue"
   <-> block_types (detect html url) = [])
  /\ (block_types (detect html url) <> [] ->
      exists kind,
        reason (get_recommended_action (detect html url)) = Some kind
        /\ In kind (block_types (detect html url))).
Proof.
  pose proof (flagged_iff (final_blocks html url)) as Hcons.
  rewrite <- block_types_final in Hcons.
  change (existsb (fun kv : string * bool => snd kv) (final_blocks html url))
    with (is_blocked (detect html url)) in Hcons.
  pose proof (detect_blocks_keys re_search re_search_groups int_of_str Soup
                Element BeautifulSoup select text html url) as Hkinds.
  fold detect in Hkinds.
  set (r := detect html url) in *.
  assert (Hcase :
    block_types r <> [] ->
    action (get_recommended_action r) <> "continue"
    /\ exists kind, reason (get_recommended_action r) = Some kind
                    /\ In kind (block_types r)).
  { intros Hne. pose proof (proj2 Hcons Hne) as Hb.
    unfold get_recommended_action. rewrite Hb. simpl negb. cbv iota.
    destruct (Py.mem "account_restricted" (block_types r)) eqn:M1;
      [split; [discriminate|eexists; split; [reflexivity|];
               apply mem_true_iff, M1]|].
    destruct (Py.mem "ip_block" (block_types r)) eqn:M2;
      [split; [discriminate|eexists; split; [reflexivity|];
               apply mem_true_iff, M2]|].
    destruct (Py.mem "security_check" (block_types r)) eqn:M3;
      [split; [discriminate|eexists; split; [reflexivity|];
               apply mem_true_iff, M3]|].
    destruct (Py.mem "rate_limit" (block_types r)) eqn:M4;
      [split; [discriminate|eexists; split; [reflexivity|];
               apply mem_true_iff, M4]|].
    destruct (Py.mem "login_required" (block_types r)) eqn:M5;
      [split; [discriminate|eexists; split; [reflexivity|];
               apply mem_true_iff, M5]|].
    destruct (Py.mem "not_found" (block_types r)) eqn:M6;
      [split; [discriminate|eexists; split; [reflexivity|];
               apply mem_true_iff, M6]|].
    destruct (Py.mem "private_profile" (block_types r)) eqn:M7;
      [split; [discriminate|eexists; split; [reflexivity|];
               apply mem_true_iff, M7]|].
    exfalso. destruct (block_types r) as [|k0 rest] eqn:Hbt;
      [congruence|].
    assert (Hk0 : In k0 block_kinds) by (apply Hkinds; left; reflexivity).
    assert (Hm : Py.mem k0 (k0 :: rest) = true)
      by (apply mem_true_iff; left; reflexivity).
    unfold block_kinds in Hk0. simpl in Hk0.
    destruct Hk0 as [<-|[<-|[<-|[<-|[<-|[<-|[<-|[]]]]]]]]; congruence. }
  split; [|intros Hne; apply Hcase, Hne].
  split.
  - intros Hact. destruct (block_types r) as [|k0 rest] eqn:Hbt;
      [reflexivity|].
    exfalso. apply (proj1 (Hcase ltac:(discriminate))). exact Hact.
  - intros Hnil.
    assert (Hb : is_blocked r = false).
    { destruct (is_blocked r) eqn:Hb; [|reflexivity].
      exfalso. apply (proj1 Hcons); [reflexivity|exact Hnil]. }
    unfold get_recommended_action. rewrite Hb. reflexivity.
Qed.

End DetectorSignals.

Section DetectorExamples.

Import BlockDetector.
Import BlockSpec.

(** A detector whose pattern engine only knows patterns without
    metacharacters (it looks for the pattern as a substring) and whose HTML
    parser always raises. *)
Definition literal_detect : string -> string -> DetectionResult :=
  detect_blocks (fun pattern text => Py.contains pattern text)
    (fun _ _ => None) (fun _ => None) Datatypes.unit Datatypes.unit
    (fun _ => None) (fun _ _ => None) (fun _ => EmptyString).

Definition security_check_patterns : list string :=
  [ "security\s+verification";
    "verificação\s+de\s+segurança";
    "prove\s+you're\s+a\s+person";
    "prove\s+que\s+você\s+é\s+humano";
    "captcha";
    "are\s+you\s+a\s+robot";
    "você\s+é\s+um\s+robô";
    "unusual\s+activity";
    "atividade\s+incomum" ].

Lemma pattern_match_is_reported_witness :
  Py.contains "captcha" (Py.lower "<div>Please solve the CAPTCHA</div>") = true
  /\ In "security_check"
        (block_types
           (literal_detect "<div>Please solve the CAPTCHA</div>"
                           "https://www.linkedin.com/in/someone")).
Proof.
  split; [reflexivity|].
  refine (proj1 (pattern_match_is_reported
    (fun pattern text => Py.contains pattern text)
    (fun _ _ => None) (fun _ => None) Datatypes.unit Datatypes.unit
    (fun _ => None) (fun _ _ => None) (fun _ => EmptyString)
    "<div>Please solve the CAPTCHA</div>"
    "https://www.linkedin.com/in/someone"
    "security_check" "captcha" security_check_patterns _ _)).
  - unfold security_check_patterns.
    do 4 right. left. reflexivity.
  - left. split; [|reflexivity].
    unfold PATTERNS. right. left. reflexivity.
Defined.

Lemma redirect_is_reported_witness :
  Py.contains "linkedin.com/login"
    "https://www.linkedin.com/login?fromSignIn=true" = true
  /\ In "login_required"
        (block_types
           (literal_detect "<html></html>"
              "https://www.linkedin.com/login?fromSignIn=true")).
Proof.
  split; [reflexivity|].
  exact (proj1 (redirect_is_reported
    (fun pattern text => Py.contains pattern text)
    (fun _ _ => None) (fun _ => None) Datatypes.unit Datatypes.unit
    (fun _ => None) (fun _ _ => None) (fun _ => EmptyString)
    "<html></html>" "https://www.linkedin.com/login?fromSignIn=true")
    eq_refl).
Defined.

End DetectorExamples.

(** ** More on the calculator *)

Section CalculatorTiers.

Import ConfidenceCalculator.

Variable unicode_to_ascii : string -> string.
Variable ratio : string -> string -> Q.

Let normalize := _normalize_text unicode_to_ascii.
Let compare_names := _compare_names unicode_to_ascii ratio.
Let compare_company := _compare_company unicode_to_ascii ratio.

Local Open Scope Q_scope.

(** X6. When every token of the normalized input name is a token of the
    normalized profile name (both names non-empty), the name score is 1 or
    0.9, whatever the similarity ratio says. *)
Theorem compare_names_token_subset (input_name profile_name : string) :
  input_name <> EmptyString ->
  profile_name <> EmptyString ->
  forallb (fun t => Py.mem t (Py.split (normalize profile_name)))
          (Py.split (normalize input_name)) = true ->
  compare_names input_name profile_name = 1
  \/ compare_names input_name profile_name = 9 # 10.
Proof.
  intros Hi Hp Hsub. unfold compare_names, _compare_names.
  rewrite (truthy_nonempty _ Hi), (truthy_nonempty _ Hp). simpl.
  fold normalize. destruct (String.eqb _ _); [left; reflexivity|].
  rewrite Hsub. right. reflexivity.
Qed.

(** X7. When both normalized names have at least two tokens and agree on
    the first and on the last token, the name score is 1, 0.9 or 0.8: a
    different middle name never costs more than 0.2. *)
Theorem compare_names_first_last (input_name profile_name : string) :
  input_name <> EmptyString ->
  profile_name <> EmptyString ->
  (2 <= length (Py.split (normalize input_name)))%nat ->
  (2 <= length (Py.split (normalize profile_name)))%nat ->
  hd EmptyString (Py.split (normalize input_name))
  = hd EmptyString (Py.split (normalize profile_name)) ->
  last (Py.split (normalize input_name)) EmptyString
  = last (Py.split (normalize profile_name)) EmptyString ->
  In (compare_names input_name profile_name) [1; 9 # 10; 8 # 10].
Proof.
  intros Hi Hp Hli Hlp Hhd Hlast. unfold compare_names, _compare_names.
  rewrite (truthy_nonempty _ Hi), (truthy_nonempty _ Hp).
  cbn [negb orb]. cbv zeta. fold normalize.
  destruct (String.eqb _ _); [simpl; tauto|].
  destruct (forallb _ _); [simpl; tauto|].
  apply Nat.leb_le in Hli, Hlp. rewrite Hli, Hlp, Hhd, Hlast.
  rewrite !String.eqb_refl. simpl. tauto.
Qed.

Lemma scan_experiences_exact (input_company : string)
    (experiences : list Experience) :
  (exists e, In e experiences
             /\ normalize (get (company e) EmptyString) = input_company) ->
  forall m,
    scan_experiences unicode_to_ascii ratio input_company experiences m
    = 9 # 10.
Proof.
  induction experiences as [|e0 experiences IH]; intros [e [Hin He]] m;
    [destruct Hin|].
  simpl. fold normalize.
  destruct (String.eqb_spec input_company
              (normalize (get (company e0) EmptyString))) as [_|Hne];
    [reflexivity|].
  apply IH. destruct Hin as [->|Hin]; [congruence|].
  exists e. split; assumption.
Qed.

(** X8. The company score is 0 for an empty input company and for an
    empty experience list; it is 1 when the normalized input equals the
    normalized company of the first experience (a non-empty entry); and it
    is above 0.7 when the normalized input equals the normalized company
    of any experience. *)
Theorem compare_company_exact (input_company : string)
    (experiences : list Experience) :
  (input_company = EmptyString \/ experiences = [] ->
   compare_company input_company experiences = 0)
  /\ (input_company <> EmptyString ->
      forall e rest,
        experiences = e :: rest -> exp_truthy e = true ->
        normalize (get (company e) EmptyString) = normalize input_company ->
        compare_company input_company experiences = 1)
  /\ (input_company <> EmptyString ->
      (exists e, In e experiences
                 /\ normalize (get (company e) EmptyString)
                    = normalize input_company) ->
      7 # 10 < compare_company input_company experiences).
Proof.
  split; [|split].
  - intros [-> | ->]; unfold compare_company, _compare_company.
    + reflexivity.
    + destruct (negb (Py.truthy input_company)); reflexivity.
  - intros Hne e rest -> Ht He. unfold compare_company, _compare_company.
    rewrite (truthy_nonempty _ Hne). simpl. rewrite Ht.
    fold normalize. rewrite He, String.eqb_refl. reflexivity.
  - intros Hne Hex. unfold compare_company, _compare_company.
    rewrite (truthy_nonempty _ Hne).
    destruct experiences as [|e0 rest]; [destruct Hex as [e [[] _]]|].
    cbn [negb orb _get_current_experience]. fold normalize.
    rewrite (scan_experiences_exact (normalize input_company) (e0 :: rest)
               Hex 0).
    destruct (exp_truthy e0); [|reflexivity].
    destruct (String.eqb _ _); [reflexivity|].
    destruct (Qgtb _ _) eqn:Hg; [apply Qgtb_true, Hg|].
    destruct (_ || _); reflexivity.
Qed.

End CalculatorTiers.

Section CalculatorTierExamples.

Import ConfidenceCalculator.

Local Open Scope Q_scope.

(** The two experiences of tests/test_confidence_calculator.py. *)
Definition two_experiences : list Experience :=
  [ {| title := Some "Software Engineer"; company := Some "Example Corp";
       duration := Some "2020 - Present"; location := None |};
    {| title := Some "Junior Developer"; company := Some "Previous Company";
       duration := Some "2018 - 2020"; location := None |} ].

Lemma compare_names_token_subset_witness :
  _compare_names Unicodedata.nfkd_ascii Difflib.ratio
    "John Smith" "John A. Smith" = 9 # 10.
Proof.
  destruct (compare_names_token_subset Unicodedata.nfkd_ascii Difflib.ratio
              "John Smith" "John A. Smith") as [H|H].
  - discriminate.
  - discriminate.
  - reflexivity.
  - vm_compute in H. discriminate H.
  - exact H.
Defined.

Lemma compare_names_first_last_witness :
  In (_compare_names Unicodedata.nfkd_ascii Difflib.ratio
        "John B Smith" "John A. Smith") [1; 9 # 10; 8 # 10].
Proof.
  apply (compare_names_first_last Unicodedata.nfkd_ascii Difflib.ratio
           "John B Smith" "John A. Smith").
  - discriminate.
  - discriminate.
  - vm_compute. lia.
  - vm_compute. lia.
  - reflexivity.
  - reflexivity.
Defined.

Lemma compare_company_exact_witness :
  7 # 10 < _compare_company Unicodedata.nfkd_ascii Difflib.ratio
             "Previous Company" two_experiences.
Proof.
  apply (proj2 (proj2 (compare_company_exact Unicodedata.nfkd_ascii
                         Difflib.ratio "Previous Company" two_experiences))).
  - discriminate.
  - exists {| title := Some "Junior Developer";
              company := Some "Previous Company";
              duration := Some "2018 - 2020"; location := None |}.
    split; [right; left; reflexivity|reflexivity].
Defined.

End CalculatorTierExamples.

Section EmptyProfile.

Import ConfidenceCalculator.

Variable unicode_to_ascii : string -> string.
Variable ratio : string -> string -> Q.

Local Open Scope Q_scope.

(** A profile from which nothing was extracted. *)
Definition empty_profile : ProfileData :=
  {| full_name := None; headline := None; experience := None;
     education := None; skills := None |}.

Lemma lower_nonempty (s : string) :
  s <> EmptyString -> Py.lower s <> EmptyString.
Proof. destruct s; [congruence|discriminate]. Qed.

Lemma contains_empty_text (sub : string) :
  sub <> EmptyString -> Py.contains sub EmptyString = false.
Proof. destruct sub; [congruence|reflexivity]. Qed.

(** X9. Against a profile without any field, the name and company scores
    are 0 and the e-mail score is the floor 0.2 as soon as the input email
    has a local part, so that the confidence is 6; without a local part it
    is 0.  The normalization of the empty string is assumed to be
    empty. *)
Theorem calculate_confidence_empty_profile (input_data : InputData) :
  unicode_to_ascii EmptyString = EmptyString ->
  calculate_confidence unicode_to_ascii ratio input_data empty_profile
  == match username_match (get (email input_data) EmptyString) with
     | Some _ => 6
     | None => 0
     end.
Proof.
  intros Hnorm. unfold calculate_confidence, final_score.
  assert (Hn : _compare_names unicode_to_ascii ratio
                 (get (name input_data) EmptyString)
                 (get (full_name empty_profile) EmptyString) = 0).
  { unfold _compare_names. simpl. rewrite orb_true_r. reflexivity. }
  assert (Hc : _compare_company unicode_to_ascii ratio
                 (get (input_company input_data) EmptyString)
                 (get (experience empty_profile) []) = 0).
  { unfold _compare_company. simpl. rewrite orb_true_r. reflexivity. }
  rewrite Hn, Hc. clear Hn Hc.
  unfold _compare_email.
  destruct (get (email input_data) EmptyString) as [|c s] eqn:Hemail.
  - vm_compute. reflexivity.
  - cbn [Py.truthy negb].
    destruct (username_match (String c s)) as [g|] eqn:Hm;
      [|vm_compute; reflexivity].
    assert (Hg : g <> EmptyString).
    { unfold username_match in Hm.
      destruct (before_at (String c s)) as [[|c' r]|]; [discriminate| |discriminate].
      inversion Hm. discriminate. }
    unfold _normalize_text. simpl get. rewrite Hnorm. simpl Py.lower.
    simpl Py.strip. simpl Py.remove_spaces.
    rewrite (contains_empty_text _ (lower_nonempty _ Hg)).
    simpl. vm_compute. reflexivity.
Qed.

End EmptyProfile.

Lemma calculate_confidence_empty_profile_witness :
  Unicodedata.nfkd_ascii EmptyString = EmptyString
  /\ (ConfidenceCalculator.calculate_confidence Unicodedata.nfkd_ascii
        Difflib.ratio john_query empty_profile == 6)%Q.
Proof.
  split; [reflexivity|].
  exact (calculate_confidence_empty_profile Unicodedata.nfkd_ascii
           Difflib.ratio john_query eq_refl).
Defined.

(** ** The back-off schedule *)

Module RetryTrace.

Import ErrorHandling.



Section Traced.

Variable W : Type.
Variable E : Type.
Variable A : Type.





End Traced.

End RetryTrace.

Section RetryTraceFacts.

Import ErrorHandling.
Import RetryTrace.

Variable W : Type.
Variable E : Type.
Variable A : Type.
Variable asyncio_sleep : Q -> W -> W.
Variable random_uniform : Q -> Q -> W -> Q * W.
Variable print : string -> W -> W.
Variable retry_message : Z -> Q -> string.
Variable give_up_message : Z -> string.
Variable func : M W E A.
Variable max_retries : Z.
Variable exceptions : E -> bool.
Variable backoff_factor : Q.


Local Open Scope Z_scope.



End RetryTraceFacts.


(** ** More on the orchestrator *)

Section HunterMore.

Import ErrorHandling.
Import ConfidenceCalculator.
Import Hunter.

Variable W : Type.
Variable E : Type.
Variable time_time : W -> Q * W.
Variable asyncio_sleep : Q -> W -> W.
Variable random_randint : Z -> Z -> W -> Z * W.
Variable random_uniform : Q -> Q -> W -> Q * W.
Variable print : string -> W -> W.
Variable retry_message : Z -> Q -> string.
Variable give_up_message : Z -> string.
Variable MAX_RETRIES : Z.
Variable RETRY_DELAY : Q.
Variable BACKOFF_FACTOR : Q.
Variable is_Exception : E -> bool.
Variable TypeError : E.
Variable AttributeError : E.
Variable find_profile : string -> string -> string -> M W E ProfileResult.
Variable scrape_profile : string -> M W E ProfileData.
Variable analyze_profile : ProfileData -> M W E string.
Variable unicode_to_ascii : string -> string.
Variable ratio : string -> string -> Q.
Variable float_str : Q -> string.

Let hunt :=
  hunt_profile W E time_time asyncio_sleep random_randint random_uniform print
    retry_message give_up_message MAX_RETRIES RETRY_DELAY BACKOFF_FACTOR
    is_Exception TypeError AttributeError find_profile scrape_profile
    analyze_profile unicode_to_ascii ratio float_str.

Let pace := limiter_wait W time_time asyncio_sleep random_randint.

Lemma range_nonpositive (n : Z) : (n <= 0)%Z -> range n = [].
Proof.
  intros H. unfold range.
  replace (Z.to_nat n) with 0%nat by lia. reflexivity.
Qed.

(** X11. With a negative [MAX_RETRIES] (the setting is read from the
    environment without a check) [hunt_profile] never invokes the finder:
    after the first pacing wait it raises the [TypeError] of subscripting
    [None], the value that [retry_async] returns when its loop is
    empty. *)
Theorem hunt_profile_negative_retries (rate_limiter : RateLimiter)
    (name email company : string) (w : W) :
  (MAX_RETRIES < 0)%Z ->
  hunt rate_limiter name email company w
  = (Raised TypeError,
     pace rate_limiter
       (print ("Buscando perfil para: " ++ name ++ " (" ++ email
               ++ ") na empresa " ++ company ++ "...")%string w)).
Proof.
  intros Hneg. unfold hunt, hunt_profile. fold pace.
  destruct (pace rate_limiter _) as [limiter1 w1].
  unfold with_retry, retry_async.
  rewrite range_nonpositive by lia. reflexivity.
Qed.

Lemma string_app_nonempty (a b : string) :
  b <> EmptyString -> (a ++ b)%string <> EmptyString.
Proof. destruct a; simpl; [tauto|discriminate]. Qed.

(** X12. Whenever [hunt_profile] returns, the result repeats the three
    inputs, its LinkedIn field is not empty (the found URL or the
    not-found text), and its confidence text ends with a percent sign. *)
Theorem hunt_profile_result_shape (rate_limiter : RateLimiter)
    (name email company : string) (w : W) (result : HuntResult)
    (final : RateLimiter * W) :
  hunt rate_limiter name email company w = (Returned result, final) ->
  Nome result = name
  /\ E_mail result = email
  /\ Empresa result = company
  /\ LinkedIn result <> EmptyString
  /\ exists digits, Confiabilidade result = (digits ++ "%")%string.
Proof.
  unfold hunt, hunt_profile. fold pace.
  destruct (pace rate_limiter _) as [limiter1 w1].
  destruct (with_retry _ _ _ _ _ _ _ _ _ _ _ _ w1) as [[[r|]|e] w2];
    [|discriminate|discriminate].
  destruct (url r) as [|c u] eqn:Hurl; cbn [Py.truthy negb].
  - intros H. inversion H; subst. simpl.
    repeat split; try discriminate. exists "0". reflexivity.
  - destruct (pace limiter1 _) as [limiter2 w3].
    destruct (with_retry _ _ _ _ _ _ _ _ _ _ _ _ w3) as [[[p|]|e] w4];
      [|discriminate|discriminate].
    destruct (pace limiter2 _) as [limiter3 w5].
    destruct (with_retry _ _ _ _ _ _ _ _ _ _ _ _ w5) as [[a|e] w6];
      [|discriminate].
    intros H. inversion H; subst. simpl.
    repeat split; try discriminate. eexists. reflexivity.
Qed.

End HunterMore.

Section HunterMoreExamples.

Import ErrorHandling.
Import ConfidenceCalculator.
Import Hunter.

(** With [MAX_RETRIES = -1] the finder, which would count its calls, is
    not invoked: the world only counts the one message printed. *)
Lemma hunt_profile_negative_retries_witness :
  (-1 < 0)%Z
  /\ hunt_profile nat string (fun w => (0%Q, w)) (fun _ w => w)
       (fun lo _ w => (lo, w)) (fun lo _ w => (lo, w)) (fun _ w => S w)
       (fun _ _ => EmptyString) (fun _ => EmptyString) (-1)%Z (5 # 1)%Q
       (2 # 1)%Q (fun _ => true) "TypeError" "AttributeError"
       (fun _ _ _ w => (Raised "finder invoked", 100 + w))
       (fun _ => raise "unreachable") (fun _ => raise "unreachable")
       Unicodedata.nfkd_ascii Difflib.ratio (fun _ => EmptyString)
       (RateLimiter_init 5) "Ana Lima" "ana@example.com" "Example Corp" 0
     = (Raised "TypeError",
        ({| requests_per_minute := 5; jitter_min_ms := 500;
            jitter_max_ms := 2000; interval := (60 / inject_Z 5)%Q;
            last_request_time := 0%Q |}, 1)).
Proof.
  assert (H : (-1 < 0)%Z) by lia.
  split; [exact H|].
  exact (hunt_profile_negative_retries nat string (fun w => (0%Q, w))
    (fun _ w => w) (fun lo _ w => (lo, w)) (fun lo _ w => (lo, w))
    (fun _ w => S w) (fun _ _ => EmptyString) (fun _ => EmptyString) (-1)%Z
    (5 # 1)%Q (2 # 1)%Q (fun _ => true) "TypeError" "AttributeError"
    (fun _ _ _ w => (Raised "finder invoked", 100 + w))
    (fun _ => raise "unreachable") (fun _ => raise "unreachable")
    Unicodedata.nfkd_ascii Difflib.ratio (fun _ => EmptyString)
    (RateLimiter_init 5) "Ana Lima" "ana@example.com" "Example Corp" 0 H).
Defined.

(** A run in which the finder finds nothing. *)
Lemma hunt_profile_result_shape_witness :
  Nome (not_found_result "Ana Lima" "ana@example.com" "Example Corp")
  = "Ana Lima"
  /\ E_mail (not_found_result "Ana Lima" "ana@example.com" "Example Corp")
     = "ana@example.com"
  /\ Empresa (not_found_result "Ana Lima" "ana@example.com" "Example Corp")
     = "Example Corp"
  /\ LinkedIn (not_found_result "Ana Lima" "ana@example.com" "Example Corp")
     <> EmptyString
  /\ exists digits,
       Confiabilidade
         (not_found_result "Ana Lima" "ana@example.com" "Example Corp")
       = (digits ++ "%")%string.
Proof.
  exact (hunt_profile_result_shape nat string (fun w => (0%Q, w))
    (fun _ w => w) (fun lo _ w => (lo, w)) (fun lo _ w => (lo, w))
    (fun _ w => w) (fun _ _ => EmptyString) (fun _ => EmptyString) 3%Z
    (5 # 1)%Q (2 # 1)%Q (fun _ => true) "TypeError" "AttributeError"
    (fun _ _ _ calls =>
       (Returned {| url := EmptyString; initial_confidence := 0%Q |},
        S calls))
    (fun _ => raise "unreachable") (fun _ => raise "unreachable")
    Unicodedata.nfkd_ascii Difflib.ratio (fun _ => EmptyString)
    (RateLimiter_init 5) "Ana Lima" "ana@example.com" "Example Corp" 0
    (not_found_result "Ana Lima" "ana@example.com" "Example Corp")
    ({| requests_per_minute := 5; jitter_min_ms := 500;
        jitter_max_ms := 2000; interval := (60 / inject_Z 5)%Q;
        last_request_time := 0%Q |}, 1)
    eq_refl).
Defined.

End HunterMoreExamples.
